(** * The compiler worker of cli/js/compiler.ts

    A shallow embedding of the single-message handler installed by
    [compilerMain] and of the pieces of the write-file state, the
    diagnostics filter and the option merger it drives, followed by the
    properties of the dispatcher. *)

From stdpp Require Import gmap strings list fin_maps pretty.

Local Open Scope Z_scope.

(** ** Values crossing the worker boundary *)

(** Values of compiler options.  Options are merged per key. *)
Inductive JsValue :=
  | JsUndefined
  | JsNull
  | JsBool (b : bool)
  | JsNum (n : Z)
  | JsStr (s : string).

(** [ts.CompilerOptions]: an object used as a map from option name to value. *)
Abbreviation CompilerOptions := (gmap string JsValue).

(** [Record<string, string>]: file name to text. *)
Abbreviation Sources := (gmap string string).

(** [ts.Diagnostic], reduced to the fields the wire form carries. *)
Record TsDiagnostic := {
  code : Z;
  category : Z;
  messageText : string;
  file : option string;
  start : option Z
}.

(** One item of the wire form of a diagnostic. *)
Record DiagnosticItem := {
  item_message : string;
  item_category : Z;
  item_code : Z;
  item_scriptResourceName : option string;
  item_startPosition : option Z
}.

Record Diagnostic := { items : list DiagnosticItem }.

(** Modelled from the spec: [fromTypeScriptDiagnostic] of
    diagnostics_util.ts is not among the sources.  Every engine
    diagnostic maps to one wire item, in the engine's order, carrying
    message text, category, code, and file and position when available. *)
Definition parseDiagnostic (d : TsDiagnostic) : DiagnosticItem :=
  {| item_message := messageText d;
     item_category := category d;
     item_code := code d;
     item_scriptResourceName := file d;
     item_startPosition := start d |}.

(** Modelled from the spec: the translation of a collection, which is
    absent with diagnostics_util.ts, keeps one item per diagnostic and
    the engine's order. *)
Definition fromTypeScriptDiagnostic (ds : list TsDiagnostic) : Diagnostic :=
  {| items := map parseDiagnostic ds |}.

(** The three request interfaces. *)
Record CompilerRequestCompile := {
  c_rootNames : list string;
  c_configPath : option string;
  c_config : option string;
  c_bundle : option bool;
  c_outFile : option string
}.

Record CompilerRequestRuntimeCompile := {
  rc_rootName : string;
  rc_sources : option Sources;
  rc_bundle : option bool;
  rc_options : option string
}.

(** [sources] is iterated by the handler: it is given by its own
    properties in the order [Object.entries] lists them, which for file
    names is the order of insertion.  The keys of an object are distinct. *)
Record CompilerRequestRuntimeTranspile := {
  rt_sources : list (string * string);
  rt_options : option string
}.

(** The payload of a message.  The handler inspects [type] at run time, so
    besides the three members of the union there is the payload whose
    [type] matches none of the [case] labels. *)
Inductive CompilerRequest :=
  | Compile (r : CompilerRequestCompile)
  | RuntimeCompile (r : CompilerRequestRuntimeCompile)
  | RuntimeTranspile (r : CompilerRequestRuntimeTranspile)
  | Unhandled (type : Z).

Inductive CompilerRequestType := TCompile | TRuntimeCompile | TRuntimeTranspile.

(** The format of the result sent back when doing a compilation. *)
Record CompileResult := {
  emitSkipped : bool;
  diagnostics : option Diagnostic
}.

Record TranspileOnlyResult := {
  source : string;
  map_ : option string
}.

(** Second element of a [RuntimeCompile] response:
    [bundle ? state.emitBundle : state.emitMap]. *)
Inductive RuntimeOutput :=
  | OfEmitBundle (b : option string)
  | OfEmitMap (m : option (gmap string string)).

(** What [postMessage] is called with. *)
Inductive Response :=
  | CompileResponse (r : CompileResult)
  | RuntimeCompileResponse (first : option (list DiagnosticItem)) (second : RuntimeOutput)
  | RuntimeTranspileResponse (result : gmap string TranspileOnlyResult).

(** ** JavaScript truthiness of the optional request fields *)

Definition truthy_bool (b : option bool) : bool :=
  match b with Some true => true | _ => false end.

Definition truthy_string (s : option string) : bool :=
  match s with Some s => negb (String.eqb s "") | None => false end.

Definition string_length_truthy (s : option string) : bool :=
  match s with Some s => negb (Nat.eqb (String.length s) 0) | None => false end.

(** An object, when present, is truthy whatever it holds. *)
Definition truthy_object {A} (o : option A) : bool :=
  match o with Some _ => true | None => false end.

(** ** Effects of the handler *)

(** Operations of the engine and of the module graph builder whose
    invocation the handler's trace records. *)
Inductive EngineOp :=
  | OpProcessImports
  | OpProcessLocalImports
  | OpResolveModules
  | OpConfigure
  | OpCreateProgram (rootNames : list string) (options : CompilerOptions)
  | OpSetRootExports
  | OpGetPreEmitDiagnostics
  | OpEmit
  | OpTranspileModule (fileName : string).

Inductive Event :=
  | EvLog (label : string)
  | EvConsoleWarn (text : string)
  | EvConsoleLog (text : string)
  | EvCall (op : EngineOp)
  | EvCache (fileName data : string)
  | EvWriteFileSync (outFile data : string)
  | EvPostMessage (r : Response)
  | EvWorkerClose.

(** What can leave the handler instead of a normal return: a failed
    [assert], with the message given to it if any, a write through a
    missing object, or the rejection of an awaited import, with the
    host's reason. *)
Inductive Exception :=
  | AssertionFailed (msg : option string)
  | TypeError
  | Rejected (reason : string).

(** How a run of the handler ends. *)
Inductive Completion (A : Type) :=
  | Normal (a : A)
  | Thrown (e : Exception).
Arguments Normal {A} a.
Arguments Thrown {A} e.

(** A run: the effects performed, in order, and the way it ended. *)
Record Run (A : Type) := mkRun {
  events : list Event;
  completion : Completion A
}.
Arguments mkRun {A} events completion.
Arguments events {A} r.
Arguments completion {A} r.

#[export] Instance Run_ret : MRet Run := λ A a, mkRun [] (Normal a).

#[export] Instance Run_bind : MBind Run := λ A B f m,
  match completion m with
  | Normal a => mkRun (events m ++ events (f a)) (completion (f a))
  | Thrown e => mkRun (events m) (Thrown e)
  end.

Definition tell (e : Event) : Run unit := mkRun [e] (Normal tt).

Definition throw {A} (e : Exception) : Run A := mkRun [] (Thrown e).

(** Modelled from the spec: [assert(cond, msg?)] of util.ts is not among
    the sources.  A violated invariant is fatal: the handler stops there
    and attempts no response. *)
Definition assert (cond : bool) (msg : option string) : Run unit :=
  if cond then mret tt else throw (AssertionFailed msg).

(** A loop over a list that threads a value through its body. *)
Fixpoint foldM {A B} (body : A → B → Run A) (a : A) (l : list B) : Run A :=
  match l with
  | [] => mret a
  | b :: l => a' ← body a b; foldM body a' l
  end.

(** [util.log], of which the label is kept, and [postMessage] and
    [workerClose] of workers.ts, each recorded as the effect it is. *)
Definition log (label : string) : Run unit := tell (EvLog label).
Definition postMessage (r : Response) : Run unit := tell (EvPostMessage r).
Definition workerClose : Run unit := tell EvWorkerClose.

(** The responses posted during a run, in order. *)
Fixpoint posted (t : list Event) : list Response :=
  match t with
  | [] => []
  | EvPostMessage r :: t => r :: posted t
  | _ :: t => posted t
  end.

(** The programs the engine was asked to create during a run: root names
    and options of each [ts.createProgram] call. *)
Fixpoint created (t : list Event) : list (list string * CompilerOptions) :=
  match t with
  | [] => []
  | EvCall (OpCreateProgram rootNames options) :: t => (rootNames, options) :: created t
  | _ :: t => created t
  end.

(** The number of [program.emit()] calls during a run. *)
Fixpoint emits (t : list Event) : nat :=
  match t with
  | [] => 0
  | EvCall OpEmit :: t => S (emits t)
  | _ :: t => emits t
  end.

(** The number of [workerClose()] calls during a run. *)
Fixpoint closes (t : list Event) : nat :=
  match t with
  | [] => 0
  | EvWorkerClose :: t => S (closes t)
  | _ :: t => closes t
  end.

(** ** The external collaborators *)

(** [ts.EmitResult]. *)
Record EmitResult := {
  er_emitSkipped : bool;
  er_diagnostics : list TsDiagnostic
}.

(** What [ts.transpileModule] returns. *)
Record TranspileOutput := {
  outputText : string;
  sourceMapText : option string
}.

(** The type-checking and emission engine, the module graph builder and
    the constants of compiler_host.ts and compiler_util.ts, none of which
    is among the sources.  Each operation is given by the value it
    returns; [emit] also gives the [writeFile] calls it makes on the host,
    in order. *)
Class Engine := {
  Program : Type;
  ConfigureResponse : Type;
  ignoredDiagnostics : list Z;
  defaultBundlerOptions : CompilerOptions;
  defaultRuntimeCompileOptions : CompilerOptions;
  defaultTranspileOptions : CompilerOptions;
  (** options a fresh [Host] starts from, given its [bundle] flag *)
  hostInitialOptions : option bool → CompilerOptions;
  convertCompilerOptions : string → CompilerOptions;
  (** the module list the promise of [processImports] is fulfilled with *)
  processImports : list (string * string) → list string;
  processLocalImports : Sources → list (string * string) → list string;
  resolveModule : string → string;
  (** [host.configure(path, configurationText)] on a host holding the
      given options: the host's options afterwards and the response *)
  hostConfigure : CompilerOptions → string → string → CompilerOptions * ConfigureResponse;
  processConfigureResponse : ConfigureResponse → string → option (list TsDiagnostic);
  createProgram : list string → CompilerOptions → Program;
  setRootExports : Program → option string → Program;
  getPreEmitDiagnostics : Program → list TsDiagnostic;
  emit : Program → list (string * string) * EmitResult;
  transpileModule : string → string → CompilerOptions → TranspileOutput;
  (** the bundle text made of one emitted artifact for a root module *)
  buildBundle : option string → string → string
}.

(** Modelled from the spec: [resolveModules] of compiler_imports.ts is not
    among the sources.  It maps each bare name to its canonical resolved
    form, without fetching or expanding imports. *)
Definition resolveModules `{Engine} (specifiers : list string) : list string :=
  map resolveModule specifiers.

(** ** Diagnostics filter *)

(** [({ code }) => !ignoredDiagnostics.includes(code)] *)
Definition not_ignored `{Engine} (d : TsDiagnostic) : bool :=
  negb (bool_decide (code d ∈ ignoredDiagnostics)).

(** [diags.filter(({ code }) => !ignoredDiagnostics.includes(code))] *)
Definition filterIgnored `{Engine} (ds : list TsDiagnostic) : list TsDiagnostic :=
  List.filter not_ignored ds.

(** ** Compiler options merger *)

(** [Object.assign(target, ...fragments)]: the fragments are copied onto
    the target from left to right, key by key. *)
Definition Object_assign (target : CompilerOptions) (fragments : list CompilerOptions)
  : CompilerOptions :=
  foldl (λ acc fragment, fragment ∪ acc) target fragments.

(** The compiler host of compiler_host.ts, reduced to the options it
    holds. *)
Record Host := { _options : CompilerOptions }.

(** [new Host({ bundle, writeFile })] *)
Definition newHost `{Engine} (bundle : option bool) : Host :=
  {| _options := hostInitialOptions bundle |}.

Definition getCompilationSettings (host : Host) : CompilerOptions := _options host.

(** Modelled from the spec: [Host.mergeOptions] of compiler_host.ts is not
    among the sources.  A left-to-right merge over the ordered fragments
    into the host's options, later fragments overriding earlier ones per
    key, with no deep merging. *)
Definition mergeOptions (host : Host) (fragments : list CompilerOptions) : Host :=
  {| _options := Object_assign (_options host) fragments |}.

Definition configure `{Engine} (host : Host) (path text : string)
  : Host * ConfigureResponse :=
  let '(options, response) := hostConfigure (_options host) path text in
  ({| _options := options |}, response).

(** ** Write-file state *)

(** The host object a state refers to once it is constructed. *)
Inductive HostRef := TheHost.

Record WriteFileState := {
  st_type : CompilerRequestType;
  st_bundle : option bool;
  st_host : option HostRef;
  st_outFile : option string;
  st_rootNames : list string;
  st_sources : option Sources;
  st_emitMap : option (gmap string string);
  st_emitBundle : option string
}.

Definition set_host (h : option HostRef) (state : WriteFileState) : WriteFileState :=
  {| st_type := st_type state; st_bundle := st_bundle state; st_host := h;
     st_outFile := st_outFile state; st_rootNames := st_rootNames state;
     st_sources := st_sources state; st_emitMap := st_emitMap state;
     st_emitBundle := st_emitBundle state |}.

Definition set_emitMap (m : option (gmap string string)) (state : WriteFileState)
  : WriteFileState :=
  {| st_type := st_type state; st_bundle := st_bundle state; st_host := st_host state;
     st_outFile := st_outFile state; st_rootNames := st_rootNames state;
     st_sources := st_sources state; st_emitMap := m;
     st_emitBundle := st_emitBundle state |}.

Definition set_emitBundle (b : option string) (state : WriteFileState) : WriteFileState :=
  {| st_type := st_type state; st_bundle := st_bundle state; st_host := st_host state;
     st_outFile := st_outFile state; st_rootNames := st_rootNames state;
     st_sources := st_sources state; st_emitMap := st_emitMap state;
     st_emitBundle := b |}.

(** Modelled from the spec: [createWriteFile] of compiler_util.ts is not
    among the sources.  The operation bound to a state follows the policy
    table: a [Compile] request forwards each artifact to the host cache,
    or when bundling writes the bundle to [outFile] or logs it; a
    [RuntimeCompile] request inserts [emitMap[fileName] = data], or when
    bundling accumulates into [emitBundle].  The state after the call is
    returned. *)
Definition createWriteFile `{Engine} (state : WriteFileState) (fileName data : string)
  : Run WriteFileState :=
  match st_type state with
  | TCompile =>
      if truthy_bool (st_bundle state) then
        let output := buildBundle (head (st_rootNames state)) data in
        match st_outFile state with
        | Some outFile =>
            if negb (String.eqb outFile "")
            then tell (EvWriteFileSync outFile output);; mret state
            else tell (EvConsoleLog output);; mret state
        | None => tell (EvConsoleLog output);; mret state
        end
      else
        tell (EvCache fileName data);; mret state
  | _ =>
      if truthy_bool (st_bundle state) then
        let output := buildBundle (head (st_rootNames state)) data in
        mret (set_emitBundle
                (Some (from_option (λ sofar, sofar +:+ output) output (st_emitBundle state)))
                state)
      else
        match st_emitMap state with
        | Some emitMap => mret (set_emitMap (Some (<[fileName := data]> emitMap)) state)
        | None => throw TypeError
        end
  end.

(** [program.emit()]: the engine calls the host's [writeFile] for each
    artifact, then returns its result. *)
Definition program_emit `{Engine} (program : Program) (state : WriteFileState)
  : Run (WriteFileState * EmitResult) :=
  tell (EvCall OpEmit);;
  state' ← foldM (λ st '(fileName, data), createWriteFile st fileName data)
                 state (emit program).1;
  mret (state', (emit program).2).

(** ** The message handler of [compilerMain] *)

(** The host-backed imports that fail: the reason with which the promise
    of [processImports] is rejected for the given specifiers, if it is. *)
Definition Rejections := list (string * string) → option string.

(** The host fulfils every import. *)
Definition fulfilled : Rejections := λ _, None.

(** [await processImports(specifiers)]: the modules the engine's
    [processImports] gives when the promise is fulfilled; a rejection
    leaves the handler there. *)
Definition awaitProcessImports `{Engine} (rejects : Rejections)
    (specifiers : list (string * string)) : Run (list string) :=
  tell (EvCall OpProcessImports);;
  match rejects specifiers with
  | Some reason => throw (Rejected reason)
  | None => mret (processImports specifiers)
  end.

Section Handler.
Context `{Engine}.
Variable rejects : Rejections.

(** [items.length ? x : undefined] and the like: the test on a length. *)
Definition is_empty {A} (l : list A) : bool := Nat.eqb (length l) 0.

(** [const program = ts.createProgram(...)] up to the emit of a [Compile]
    request, entered when the configuration left no diagnostics.  Returns
    [emitSkipped] and the diagnostics to report. *)
Definition compile_program (bundle : option bool) (rootNames resolvedRootModules : list string)
    (host : Host) (state : WriteFileState) : Run (bool * list TsDiagnostic) :=
  let options := getCompilationSettings host in
  tell (EvCall (OpCreateProgram rootNames options));;
  let program := createProgram rootNames options in
  tell (EvCall OpGetPreEmitDiagnostics);;
  let diagnostics := filterIgnored (getPreEmitDiagnostics program) in
  (* We will only proceed with the emit if there are no diagnostics. *)
  if is_empty diagnostics then
    program ← (if truthy_bool bundle then
                 (* we only support a single root module when bundling *)
                 assert (Nat.eqb (length resolvedRootModules) 1) None;;
                 tell (EvConsoleWarn "Bundling");;
                 tell (EvCall OpSetRootExports);;
                 mret (setRootExports program (head resolvedRootModules))
               else mret program);
    '(_, emitResult) ← program_emit program state;
    mret (er_emitSkipped emitResult, er_diagnostics emitResult)
  else
    mret (true, diagnostics).

(** [case CompilerRequestType.Compile] *)
Definition compile_awaiting (request : CompilerRequestCompile) : Run unit :=
  let bundle := c_bundle request in
  let config := c_config request in
  let configPath := c_configPath request in
  let outFile := c_outFile request in
  let rootNames := c_rootNames request in
  log ">>> compile start";;
  resolvedRootModules ←
    awaitProcessImports rejects (map (λ rootName, (rootName, rootName)) rootNames);
  let state :=
    {| st_type := TCompile; st_bundle := bundle; st_host := None;
       st_outFile := outFile; st_rootNames := rootNames; st_sources := None;
       st_emitMap := None; st_emitBundle := None |} in
  let host := newHost bundle in
  let state := set_host (Some TheHost) state in
  (* if there is a configuration supplied, we need to parse that *)
  '(host, diagnostics) ←
    match config, configPath with
    | Some config', Some configPath' =>
        if truthy_string config && string_length_truthy config && truthy_string configPath
        then
          tell (EvCall OpConfigure);;
          let '(host, configResult) := configure host configPath' config' in
          mret (host, processConfigureResponse configResult configPath')
        else mret (host, None)
    | _, _ => mret (host, None)
    end;
  '(emitSkipped, diagnostics) ←
    match diagnostics with
    | None => compile_program bundle rootNames resolvedRootModules host state
    | Some configDiagnostics =>
        if is_empty configDiagnostics
        then compile_program bundle rootNames resolvedRootModules host state
        else mret (true, configDiagnostics)
    end;
  let result :=
    {| emitSkipped := emitSkipped;
       diagnostics := if negb (is_empty diagnostics)
                      then Some (fromTypeScriptDiagnostic diagnostics)
                      else None |} in
  postMessage (CompileResponse result);;
  log "<<< compile end".

(** The fragments a [RuntimeCompile] request hands to [host.mergeOptions]. *)
Definition runtimeCompileOptions (options : option string) (bundle : option bool)
  : list CompilerOptions :=
  let compilerOptions := [defaultRuntimeCompileOptions] in
  let compilerOptions :=
    match options with
    | Some options' =>
        if truthy_string options
        then compilerOptions ++ [convertCompilerOptions options']
        else compilerOptions
    | None => compilerOptions
    end in
  if truthy_bool bundle
  then compilerOptions ++ [defaultBundlerOptions]
  else compilerOptions.

(** The write-file state a [RuntimeCompile] request starts from, with the
    host bound. *)
Definition runtimeCompileState (request : CompilerRequestRuntimeCompile)
    (rootNames : list string) : WriteFileState :=
  set_host (Some TheHost)
    {| st_type := TRuntimeCompile; st_bundle := rc_bundle request; st_host := None;
       st_outFile := None; st_rootNames := rootNames;
       st_sources := rc_sources request;
       st_emitMap := Some ∅; st_emitBundle := None |}.

(** [case CompilerRequestType.RuntimeCompile] *)
Definition runtimeCompile_awaiting (request : CompilerRequestRuntimeCompile) : Run unit :=
  let rootName := rc_rootName request in
  let sources := rc_sources request in
  let options := rc_options request in
  let bundle := rc_bundle request in
  log ">>> runtime compile start";;
  resolvedRootName ←
    match sources with
    | Some _ => mret rootName
    | None =>
        tell (EvCall OpResolveModules);;
        (* [resolveModules([rootName])[0]]: one resolved name per specifier,
           so the first element is there *)
        mret (default rootName (head (resolveModules [rootName])))
    end;
  rootNames ←
    match sources with
    | Some sources' =>
        tell (EvCall OpProcessLocalImports);;
        mret (processLocalImports sources' [(resolvedRootName, resolvedRootName)])
    | None =>
        awaitProcessImports rejects [(resolvedRootName, resolvedRootName)]
    end;
  let state := runtimeCompileState request rootNames in
  let host := newHost bundle in
  let compilerOptions := runtimeCompileOptions options bundle in
  let host := mergeOptions host compilerOptions in
  tell (EvCall (OpCreateProgram rootNames (getCompilationSettings host)));;
  let program := createProgram rootNames (getCompilationSettings host) in
  program ← (if truthy_bool bundle then
               tell (EvCall OpSetRootExports);;
               mret (setRootExports program (head rootNames))
             else mret program);
  tell (EvCall OpGetPreEmitDiagnostics);;
  let diagnostics := filterIgnored (getPreEmitDiagnostics program) in
  '(state, emitResult) ← program_emit program state;
  assert (negb (er_emitSkipped emitResult)) (Some "Unexpected skip of the emit.");;
  let items := items (fromTypeScriptDiagnostic diagnostics) in
  let result :=
    RuntimeCompileResponse
      (if negb (is_empty items) then Some items else None)
      (if truthy_bool bundle
       then OfEmitBundle (st_emitBundle state)
       else OfEmitMap (st_emitMap state)) in
  postMessage result;;
  assert (truthy_object (st_emitMap state)) None;;
  log "<<< runtime compile finish".

(** The options a [RuntimeTranspile] request transpiles with. *)
Definition transpileOptions (options : option string) : CompilerOptions :=
  match options with
  | Some options' =>
      if truthy_string options
      then Object_assign ∅ [defaultTranspileOptions; convertCompilerOptions options']
      else defaultTranspileOptions
  | None => defaultTranspileOptions
  end.

(** [Object.entries(sources)]: the own properties of the object, in
    their order. *)
Definition Object_entries (sources : list (string * string)) : list (string * string) :=
  sources.

(** [result[fileName] = value] on the plain object [result], for a value
    that is an object: an own property is defined, except for the name
    [__proto__], where the assignment goes to the setter inherited from
    [Object.prototype] and replaces the prototype of [result], leaving
    its own properties as they were. *)
Definition object_set (result : gmap string TranspileOnlyResult)
    (fileName : string) (value : TranspileOnlyResult) : gmap string TranspileOnlyResult :=
  if String.eqb fileName "__proto__" then result else <[fileName := value]> result.

(** The body of the loop over the entries: [result[fileName] = { source, map }]. *)
Definition transpile_entry (compilerOptions : CompilerOptions)
    (result : gmap string TranspileOnlyResult) (entry : string * string)
  : Run (gmap string TranspileOnlyResult) :=
  let '(fileName, inputText) := entry in
  tell (EvCall (OpTranspileModule fileName));;
  let out := transpileModule inputText fileName compilerOptions in
  mret (object_set result fileName
          {| source := outputText out; map_ := sourceMapText out |}).

(** [case CompilerRequestType.RuntimeTranspile] *)
Definition runtimeTranspile (request : CompilerRequestRuntimeTranspile) : Run unit :=
  let sources := rt_sources request in
  let options := rt_options request in
  let compilerOptions := transpileOptions options in
  result ← foldM (transpile_entry compilerOptions) ∅ (Object_entries sources);
  postMessage (RuntimeTranspileResponse result).

(** The line logged for a payload of no known kind: the kind, then its
    name in the enumeration, which for a kind that is no member of it is
    [undefined]. *)
Definition unhandledMessage (type : Z) : string :=
  "!!! unhandled CompilerRequestType: " +:+ pretty type +:+ " (undefined)".

(** [self.onmessage]: the switch on the request type, then the close of
    the worker. *)
Definition onmessage_awaiting (request : CompilerRequest) : Run unit :=
  match request with
  | Compile r => compile_awaiting r
  | RuntimeCompile r => runtimeCompile_awaiting r
  | RuntimeTranspile r => runtimeTranspile r
  | Unhandled type => log (unhandledMessage type)
  end;;
  (* The compiler isolate exits after a single message. *)
  workerClose.

End Handler.

(** The handler when the host fulfils every import it is asked for. *)
Definition compile `{Engine} (request : CompilerRequestCompile) : Run unit :=
  compile_awaiting fulfilled request.

Definition runtimeCompile `{Engine} (request : CompilerRequestRuntimeCompile) : Run unit :=
  runtimeCompile_awaiting fulfilled request.

Definition onmessage `{Engine} (request : CompilerRequest) : Run unit :=
  onmessage_awaiting fulfilled request.

(** ** What a request makes the collaborators compute *)

Section Observations.
Context `{Engine}.

(** The resolved root modules of a [Compile] request. *)
Definition compileResolved (r : CompilerRequestCompile) : list string :=
  processImports (map (λ rootName, (rootName, rootName)) (c_rootNames r)).

(** The test [config && config.length && configPath]. *)
Definition configSupplied (r : CompilerRequestCompile) : bool :=
  truthy_string (c_config r) && string_length_truthy (c_config r)
  && truthy_string (c_configPath r).

(** The host of a [Compile] request after the configuration step, and the
    diagnostics of that step ([None] where the handler leaves them
    undefined). *)
Definition compileConfigured (r : CompilerRequestCompile)
  : Host * option (list TsDiagnostic) :=
  match c_config r, c_configPath r with
  | Some config, Some configPath =>
      if configSupplied r
      then let '(host, configResult) := configure (newHost (c_bundle r)) configPath config in
           (host, processConfigureResponse configResult configPath)
      else (newHost (c_bundle r), None)
  | _, _ => (newHost (c_bundle r), None)
  end.

(** [!diagnostics || (diagnostics && diagnostics.length === 0)] after the
    configuration step. *)
Definition configClean (r : CompilerRequestCompile) : bool :=
  match (compileConfigured r).2 with
  | None => true
  | Some configDiagnostics => is_empty configDiagnostics
  end.

Definition compileProgram (r : CompilerRequestCompile) : Program :=
  createProgram (c_rootNames r) (getCompilationSettings (compileConfigured r).1).

(** The filtered pre-emit diagnostics of the program of a [Compile] request. *)
Definition compilePreEmit (r : CompilerRequestCompile) : list TsDiagnostic :=
  filterIgnored (getPreEmitDiagnostics (compileProgram r)).

(** What the engine's emit returns for a [Compile] request that reaches it. *)
Definition compileEmitResult (r : CompilerRequestCompile) : EmitResult :=
  (emit (if truthy_bool (c_bundle r)
         then setRootExports (compileProgram r) (head (compileResolved r))
         else compileProgram r)).2.

(** The write-file state of a [Compile] request, with the host bound. *)
Definition compileState (r : CompilerRequestCompile) : WriteFileState :=
  set_host (Some TheHost)
    {| st_type := TCompile; st_bundle := c_bundle r; st_host := None;
       st_outFile := c_outFile r; st_rootNames := c_rootNames r; st_sources := None;
       st_emitMap := None; st_emitBundle := None |}.

(** The emit of a [Compile] request that reaches it, run on its state. *)
Definition compileEmit (r : CompilerRequestCompile) : Run (WriteFileState * EmitResult) :=
  program_emit (if truthy_bool (c_bundle r)
                then setRootExports (compileProgram r) (head (compileResolved r))
                else compileProgram r)
               (compileState r).

(** The result a [Compile] request posts for a given [emitSkipped] and
    final diagnostics. *)
Definition compileResult (skipped : bool) (ds : list TsDiagnostic) : CompileResult :=
  {| emitSkipped := skipped;
     diagnostics := if negb (is_empty ds)
                    then Some (fromTypeScriptDiagnostic ds)
                    else None |}.

Definition runtimeResolvedRootName (r : CompilerRequestRuntimeCompile) : string :=
  match rc_sources r with
  | Some _ => rc_rootName r
  | None => default (rc_rootName r) (head (resolveModules [rc_rootName r]))
  end.

(** The root names of the program of a [RuntimeCompile] request. *)
Definition runtimeRootNames (r : CompilerRequestRuntimeCompile) : list string :=
  let resolvedRootName := runtimeResolvedRootName r in
  match rc_sources r with
  | Some sources => processLocalImports sources [(resolvedRootName, resolvedRootName)]
  | None => processImports [(resolvedRootName, resolvedRootName)]
  end.

(** The options the program of a [RuntimeCompile] request is created with. *)
Definition runtimeSettings (r : CompilerRequestRuntimeCompile) : CompilerOptions :=
  getCompilationSettings
    (mergeOptions (newHost (rc_bundle r))
                  (runtimeCompileOptions (rc_options r) (rc_bundle r))).

(** The program of a [RuntimeCompile] request as it is when emitted. *)
Definition runtimeProgram (r : CompilerRequestRuntimeCompile) : Program :=
  let program := createProgram (runtimeRootNames r) (runtimeSettings r) in
  if truthy_bool (rc_bundle r)
  then setRootExports program (head (runtimeRootNames r))
  else program.

(** The filtered pre-emit diagnostics of a [RuntimeCompile] request. *)
Definition runtimePreEmit (r : CompilerRequestRuntimeCompile) : list TsDiagnostic :=
  filterIgnored (getPreEmitDiagnostics (runtimeProgram r)).

Definition runtimeEmitResult (r : CompilerRequestRuntimeCompile) : EmitResult :=
  (emit (runtimeProgram r)).2.

(** The emit of a [RuntimeCompile] request, run on the state the request
    starts from. *)
Definition runtimeEmit (r : CompilerRequestRuntimeCompile)
  : Run (WriteFileState * EmitResult) :=
  program_emit (runtimeProgram r) (runtimeCompileState r (runtimeRootNames r)).

(** First element of a [RuntimeCompile] response:
    [items && items.length ? items : undefined]. *)
Definition itemsOrAbsent (ds : list TsDiagnostic) : option (list DiagnosticItem) :=
  let items := items (fromTypeScriptDiagnostic ds) in
  if negb (is_empty items) then Some items else None.

(** Second element of a [RuntimeCompile] response, read off the state. *)
Definition outputOf (bundle : option bool) (state : WriteFileState) : RuntimeOutput :=
  if truthy_bool bundle
  then OfEmitBundle (st_emitBundle state)
  else OfEmitMap (st_emitMap state).

(** The entry of a [RuntimeTranspile] response for one input. *)
Definition transpiled (options : option string) (fileName inputText : string)
  : TranspileOnlyResult :=
  let out := transpileModule inputText fileName (transpileOptions options) in
  {| source := outputText out; map_ := sourceMapText out |}.

(** The mapping a [RuntimeTranspile] request answers with: the object
    the loop over the entries builds. *)
Definition transpileResult (r : CompilerRequestRuntimeTranspile)
  : gmap string TranspileOnlyResult :=
  foldl (λ result '(fileName, inputText),
           object_set result fileName (transpiled (rt_options r) fileName inputText))
        ∅ (Object_entries (rt_sources r)).

(** The specifiers a request awaits the host-backed imports of, if it
    awaits any. *)
Definition awaitedImports (request : CompilerRequest) : option (list (string * string)) :=
  match request with
  | Compile r => Some (map (λ rootName, (rootName, rootName)) (c_rootNames r))
  | RuntimeCompile r =>
      match rc_sources r with
      | Some _ => None
      | None => Some [(runtimeResolvedRootName r, runtimeResolvedRootName r)]
      end
  | _ => None
  end.

(** The reason with which the import a request awaits is rejected, if it
    is. *)
Definition rejection (rejects : Rejections) (request : CompilerRequest) : option string :=
  awaitedImports request ≫= rejects.

End Observations.

(** A stretch of a run with no response posted, no worker close, no
    program created and no emit. *)
Definition silent (t : list Event) : Prop :=
  posted t = [] ∧ closes t = 0%nat ∧ emits t = 0%nat ∧ created t = [].

(** A state on which the write-file operation cannot fail: that of a
    [Compile] request, or one whose [emitMap] is there. *)
Definition usable (state : WriteFileState) : Prop :=
  st_type state = TCompile ∨ is_Some (st_emitMap state).


(** The diagnostic items a response carries. *)
Definition response_items (response : Response) : list DiagnosticItem :=
  match response with
  | CompileResponse r => from_option items [] (diagnostics r)
  | RuntimeCompileResponse first _ => default [] first
  | RuntimeTranspileResponse _ => []
  end.

(** A response carries a diagnostic whose code is in the ignored set. *)
Definition mentions_ignored `{Engine} (response : Response) : Prop :=
  ∃ item, item ∈ response_items response ∧ item_code item ∈ ignoredDiagnostics.

(** The handler answers: it returns, having posted exactly the given
    response and then closed the worker, once, as its last effect. *)
Definition responds (run : Run unit) (response : Response) : Prop :=
  completion run = Normal tt
  ∧ ∃ t, events run = t ++ [EvWorkerClose] ∧ posted t = [response] ∧ closes t = 0%nat.

(** The handler aborts: the exception leaves it with no response posted
    and the worker not closed. *)
Definition aborts (run : Run unit) (e : Exception) : Prop :=
  completion run = Thrown e
  ∧ posted (events run) = [] ∧ closes (events run) = 0%nat.

(** ** A scripted engine for concrete runs *)

(** An engine whose answers are fixed in advance: the diagnostics of the
    configuration step, the pre-emit diagnostics of every program and the
    result of every emit.  Modules resolve to themselves, every root
    module is emitted as one artifact, and the text of caller options is
    read as a value for the [module] option. *)
Definition scripted (configDiagnostics : option (list TsDiagnostic))
    (preEmit : list TsDiagnostic) (result : EmitResult) : Engine :=
  {| Program := list string * CompilerOptions;
     ConfigureResponse := option (list TsDiagnostic);
     ignoredDiagnostics := [1308; 2691; 5009];
     defaultBundlerOptions := {[ "module" := JsStr "amd"; "sourceMap" := JsBool false ]};
     defaultRuntimeCompileOptions := {[ "outDir" := JsUndefined ]};
     defaultTranspileOptions := {[ "esModuleInterop" := JsBool true; "module" := JsStr "esnext" ]};
     hostInitialOptions := λ _, {[ "strict" := JsBool true ]};
     convertCompilerOptions := λ text, {[ "module" := JsStr text ]};
     processImports := λ pairs, pairs.*2;
     processLocalImports := λ _ pairs, pairs.*2;
     resolveModule := λ specifier, specifier;
     hostConfigure := λ options _ _, (options, configDiagnostics);
     processConfigureResponse := λ response _, response;
     createProgram := λ rootNames options, (rootNames, options);
     setRootExports := λ program _, program;
     getPreEmitDiagnostics := λ _, preEmit;
     emit := λ program, (map (λ rootName, (rootName +:+ ".js", "compiled")) program.1, result);
     transpileModule := λ inputText _ _, {| outputText := inputText; sourceMapText := None |};
     buildBundle := λ _ data, data |}.

Definition emitDone : EmitResult := {| er_emitSkipped := false; er_diagnostics := [] |}.

(** A diagnostic with the given code. *)
Definition diagnosticOf (c : Z) : TsDiagnostic :=
  {| code := c; category := 1; messageText := "reported"; file := None; start := None |}.

(** An engine that finds nothing to report and emits. *)
Definition cleanEngine : Engine := scripted None [] emitDone.

(** An engine whose programs have one pre-emit diagnostic that is not ignored. *)
Definition failingEngine : Engine := scripted None [diagnosticOf 2322] emitDone.

(** An engine whose configuration step reports a diagnostic whose code is
    in the ignored set. *)
Definition configEngine : Engine := scripted (Some [diagnosticOf 5009]) [] emitDone.

(** An engine whose emit is skipped and reports a diagnostic. *)
Definition skippingEngine : Engine :=
  scripted None [] {| er_emitSkipped := true; er_diagnostics := [diagnosticOf 5055] |}.

Definition compileOne : CompilerRequestCompile :=
  {| c_rootNames := ["a.ts"]; c_configPath := None; c_config := None;
     c_bundle := None; c_outFile := None |}.

Definition compileConfig : CompilerRequestCompile :=
  {| c_rootNames := ["a.ts"]; c_configPath := Some "tsconfig.json";
     c_config := Some "{}"; c_bundle := None; c_outFile := None |}.

Definition bundleTwo : CompilerRequestCompile :=
  {| c_rootNames := ["a.ts"; "b.ts"]; c_configPath := None; c_config := None;
     c_bundle := Some true; c_outFile := None |}.

Definition runtimeOne : CompilerRequestRuntimeCompile :=
  {| rc_rootName := "a.ts"; rc_sources := Some {[ "a.ts" := "export const x = 1;" ]};
     rc_bundle := None; rc_options := None |}.

Definition runtimeBundle : CompilerRequestRuntimeCompile :=
  {| rc_rootName := "a.ts"; rc_sources := Some {[ "a.ts" := "export const x = 1;" ]};
     rc_bundle := Some true; rc_options := Some "commonjs" |}.

Definition transpileTwo : CompilerRequestRuntimeTranspile :=
  {| rt_sources := [("b.ts", "let b"); ("a.ts", "let a")]; rt_options := None |}.

(** A [RuntimeTranspile] request whose sources have a file named
    [__proto__]. *)
Definition transpileProto : CompilerRequestRuntimeTranspile :=
  {| rt_sources := [("__proto__", "let a")]; rt_options := None |}.

(** An engine whose programs have a pre-emit diagnostic and whose emit is
    skipped. *)
Definition failingSkippingEngine : Engine :=
  scripted None [diagnosticOf 2322] {| er_emitSkipped := true; er_diagnostics := [] |}.

(** A host that fails every import, with the given reason. *)
Definition failing (reason : string) : Rejections := λ _, Some reason.

(** ** The engine calls of a run *)

(** The operations of the engine and of the module graph builder invoked
    during a run, in order. *)
Fixpoint calls (t : list Event) : list EngineOp :=
  match t with
  | [] => []
  | EvCall op :: t => op :: calls t
  | _ :: t => calls t
  end.

(** ** The message handler of [wasmCompilerMain] *)

(** An entry of [WebAssembly.Module.imports(module)]. *)
Record ModuleImportDescriptor := {
  imp_module : string;
  imp_name : string;
  imp_kind : string
}.

(** An entry of [WebAssembly.Module.exports(module)]. *)
Record ModuleExportDescriptor := {
  exp_name : string;
  exp_kind : string
}.

(** The WebAssembly engine and the decoder of util.ts.  [compile] gives no
    module when the promise it returns is rejected. *)
Class WasmEngine := {
  WasmModule : Type;
  base64ToUint8Array : string → list Z;
  WebAssembly_compile : list Z → option WasmModule;
  WebAssembly_Module_imports : WasmModule → list ModuleImportDescriptor;
  WebAssembly_Module_exports : WasmModule → list ModuleExportDescriptor
}.

(** [set.add(x)]: a set keeps its elements in insertion order, and adding
    an element it has changes nothing. *)
Definition Set_add (set : list string) (x : string) : list string :=
  if bool_decide (x ∈ set) then set else set ++ [x].

(** [Array.from(new Set(xs))] *)
Definition Array_from_Set (xs : list string) : list string :=
  foldl Set_add [] xs.

Inductive WasmEvent :=
  | WasmLog (label : string)
  | WasmPostMessage (importList exportList : list string)
  | WasmWorkerClose.

(** A run of the handler: its effects in order, and whether it returned
    (it does not when the compilation is rejected). *)
Record WasmRun := {
  wasm_events : list WasmEvent;
  wasm_returned : bool
}.

(** [self.onmessage] as set by [wasmCompilerMain]. *)
Definition wasmOnmessage `{WasmEngine} (binary : string) : WasmRun :=
  let buffer := base64ToUint8Array binary in
  match WebAssembly_compile buffer with
  | None => {| wasm_events := []; wasm_returned := false |}
  | Some compiled =>
      let importList :=
        Array_from_Set (map imp_module (WebAssembly_Module_imports compiled)) in
      let exportList :=
        Array_from_Set (map exp_name (WebAssembly_Module_exports compiled)) in
      {| wasm_events := [WasmLog ">>> WASM compile start";
                         WasmPostMessage importList exportList;
                         WasmLog "<<< WASM compile end";
                         (* The compiler isolate exits after a single message. *)
                         WasmWorkerClose];
         wasm_returned := true |}
  end.

(** A WebAssembly engine for concrete runs: the buffer holds the character
    codes of the text, an empty buffer is rejected, and every other one
    compiles to a module importing [env] twice and [wasi] once, and
    exporting [main] and [memory]. *)
Definition scriptedWasm : WasmEngine :=
  {| WasmModule := list ModuleImportDescriptor * list ModuleExportDescriptor;
     base64ToUint8Array := λ text,
       map (λ a, Z.of_nat (Ascii.nat_of_ascii a)) (String.list_ascii_of_string text);
     WebAssembly_compile := λ buffer,
       match buffer with
       | [] => None
       | _ => Some ([ {| imp_module := "env"; imp_name := "memory"; imp_kind := "memory" |};
                      {| imp_module := "wasi"; imp_name := "fd_write"; imp_kind := "function" |};
                      {| imp_module := "env"; imp_name := "abort"; imp_kind := "function" |} ],
                    [ {| exp_name := "main"; exp_kind := "function" |};
                      {| exp_name := "memory"; exp_kind := "memory" |} ])
       end;
     WebAssembly_Module_imports := fst;
     WebAssembly_Module_exports := snd |}.

(** A [Compile] request that asks for a bundle of no root module. *)
Definition bundleNone : CompilerRequestCompile :=
  {| c_rootNames := []; c_configPath := None; c_config := None;
     c_bundle := Some true; c_outFile := None |}.

(** A [Compile] request whose config path is the empty string. *)
Definition compileEmptyPath : CompilerRequestCompile :=
  {| c_rootNames := ["a.ts"]; c_configPath := Some "";
     c_config := Some "{}"; c_bundle := None; c_outFile := None |}.

(** A [RuntimeCompile] request with caller options and no local sources. *)
Definition runtimeRemote : CompilerRequestRuntimeCompile :=
  {| rc_rootName := "a.ts"; rc_sources := None;
     rc_bundle := None; rc_options := Some "commonjs" |}.

(** ** Laws of runs *)

Lemma onmessage_Compile `{Engine} r :
  onmessage (Compile r) = compile r ≫= λ _, workerClose.
Proof. reflexivity. Qed.

Lemma onmessage_RuntimeCompile `{Engine} r :
  onmessage (RuntimeCompile r) = runtimeCompile r ≫= λ _, workerClose.
Proof. reflexivity. Qed.

Lemma onmessage_RuntimeTranspile `{Engine} r :
  onmessage (RuntimeTranspile r) = runtimeTranspile r ≫= λ _, workerClose.
Proof. reflexivity. Qed.

Lemma ret_bind {A B} (a : A) (f : A → Run B) : mret a ≫= f = f a.
Proof. unfold mbind, Run_bind; simpl. by destruct (f a). Qed.

Lemma tell_bind {B} (e : Event) (f : unit → Run B) :
  tell e ≫= f = mkRun (e :: events (f tt)) (completion (f tt)).
Proof. reflexivity. Qed.

Lemma throw_bind {A B} (e : Exception) (f : A → Run B) : throw e ≫= f = throw e.
Proof. reflexivity. Qed.

Lemma bind_normal {A B} (m : Run A) (f : A → Run B) t a :
  m = mkRun t (Normal a) →
  m ≫= f = mkRun (t ++ events (f a)) (completion (f a)).
Proof. by intros ->. Qed.

Lemma bind_thrown {A B} (m : Run A) (f : A → Run B) t e :
  m = mkRun t (Thrown e) → m ≫= f = mkRun t (Thrown e).
Proof. by intros ->. Qed.

Lemma bind_mkRun {A B} t (c : Completion A) (f : A → Run B) :
  mkRun t c ≫= f =
  match c with
  | Normal a => mkRun (t ++ events (f a)) (completion (f a))
  | Thrown e => mkRun t (Thrown e)
  end.
Proof. by destruct c. Qed.

Lemma posted_app t1 t2 : posted (t1 ++ t2) = posted t1 ++ posted t2.
Proof.
  induction t1 as [|e t1 IH]; [done|].
  destruct e; simpl; by rewrite ?IH.
Qed.

Lemma emits_app t1 t2 : emits (t1 ++ t2) = (emits t1 + emits t2)%nat.
Proof.
  induction t1 as [|e t1 IH]; [done|].
  destruct e as [| | |[]| | | |]; simpl; by rewrite ?IH.
Qed.

Lemma closes_app t1 t2 : closes (t1 ++ t2) = (closes t1 + closes t2)%nat.
Proof.
  induction t1 as [|e t1 IH]; [done|].
  destruct e; simpl; by rewrite ?IH.
Qed.

Lemma created_app t1 t2 : created (t1 ++ t2) = created t1 ++ created t2.
Proof.
  induction t1 as [|e t1 IH]; [done|].
  destruct e as [| | |[]| | | |]; simpl; by rewrite ?IH.
Qed.

(** ** The write-file operation never posts, closes or calls the engine *)

Lemma silent_nil : silent [].
Proof. by repeat split. Qed.

Lemma silent_app t1 t2 : silent t1 → silent t2 → silent (t1 ++ t2).
Proof.
  intros (?&?&?&?) (?&?&?&?).
  repeat split; rewrite ?posted_app, ?closes_app, ?emits_app, ?created_app;
    by simplify_eq/=; repeat match goal with H : _ = _ |- _ => rewrite H end.
Qed.

Section WriteFile.
Context `{Engine}.

Lemma createWriteFile_normal state fileName data :
  usable state →
  ∃ t state', createWriteFile state fileName data = mkRun t (Normal state')
    ∧ silent t ∧ usable state' ∧ st_type state' = st_type state
    ∧ (is_Some (st_emitMap state) → is_Some (st_emitMap state')).
Proof.
  intros Hus. unfold createWriteFile.
  destruct (st_type state) eqn:Hty.
  - destruct (truthy_bool (st_bundle state)).
    + destruct (st_outFile state) as [outFile|]; [destruct (negb _)|];
        eexists _, state; (split; [reflexivity|]); repeat split; auto.
    + eexists _, state; (split; [reflexivity|]); repeat split; auto.
  - destruct Hus as [Hus|[m Hm]]; [congruence|].
    destruct (truthy_bool (st_bundle state)).
    + eexists [], _; (split; [reflexivity|]).
      split; [apply silent_nil|]. unfold usable; simpl. rewrite Hm. eauto 6.
    + rewrite Hm. eexists [], _; (split; [reflexivity|]).
      split; [apply silent_nil|]. simpl. unfold usable; simpl. eauto 6.
  - destruct Hus as [Hus|[m Hm]]; [congruence|].
    destruct (truthy_bool (st_bundle state)).
    + eexists [], _; (split; [reflexivity|]).
      split; [apply silent_nil|]. unfold usable; simpl. rewrite Hm. eauto 6.
    + rewrite Hm. eexists [], _; (split; [reflexivity|]).
      split; [apply silent_nil|]. simpl. unfold usable; simpl. eauto 6.
Qed.

Lemma writeFiles_normal files : ∀ state,
  usable state →
  ∃ t state',
    foldM (λ st '(fileName, data), createWriteFile st fileName data) state files
      = mkRun t (Normal state')
    ∧ silent t ∧ usable state' ∧ st_type state' = st_type state
    ∧ (is_Some (st_emitMap state) → is_Some (st_emitMap state')).
Proof.
  induction files as [|[fileName data] files IH]; intros state Hus.
  - exists [], state. repeat split; auto.
  - destruct (createWriteFile_normal state fileName data Hus)
      as (t1 & st1 & Hrun1 & Hs1 & Hus1 & Hty1 & Hmap1).
    destruct (IH st1 Hus1) as (t2 & st2 & Hrun2 & Hs2 & Hus2 & Hty2 & Hmap2).
    exists (t1 ++ t2), st2. split.
    + simpl. rewrite (bind_normal _ _ _ _ Hrun1), Hrun2. reflexivity.
    + split; [by apply silent_app|]. split; [done|]. split; [congruence|auto].
Qed.

Lemma program_emit_normal program state :
  usable state →
  ∃ t state',
    program_emit program state
      = mkRun (EvCall OpEmit :: t) (Normal (state', (emit program).2))
    ∧ silent t ∧ usable state' ∧ st_type state' = st_type state
    ∧ (is_Some (st_emitMap state) → is_Some (st_emitMap state')).
Proof.
  intros Hus.
  destruct (writeFiles_normal (emit program).1 state Hus)
    as (t & state' & Hrun & Hs & Hus' & Hty & Hmap).
  exists t, state'. split; [|done].
  unfold program_emit. rewrite tell_bind, (bind_normal _ _ _ _ Hrun). simpl.
  by rewrite app_nil_r.
Qed.

End WriteFile.

(** ** The runs of the three cases *)

Section Runs.
Context `{Engine}.

Local Arguments program_emit : simpl never.
Local Arguments filterIgnored : simpl never.

Lemma runtimeCompileState_usable r rootNames :
  is_Some (st_emitMap (runtimeCompileState r rootNames)).
Proof. by eexists. Qed.

(** The run of a [RuntimeCompile] request: a prefix that creates the one
    program, the emit and its writes, then either the failed assertion or
    the response and the closing log line. *)
Lemma runtimeCompile_run r :
  ∃ pre t state',
    runtimeCompile r =
      (if er_emitSkipped (runtimeEmitResult r)
       then mkRun (pre ++ EvCall OpEmit :: t)
                  (Thrown (AssertionFailed (Some "Unexpected skip of the emit.")))
       else mkRun (pre ++ EvCall OpEmit :: t ++
                     [EvPostMessage
                        (RuntimeCompileResponse (itemsOrAbsent (runtimePreEmit r))
                                                (outputOf (rc_bundle r) state'));
                      EvLog "<<< runtime compile finish"])
                  (Normal tt))
    ∧ runtimeEmit r = mkRun (EvCall OpEmit :: t) (Normal (state', runtimeEmitResult r))
    ∧ posted pre = [] ∧ closes pre = 0%nat ∧ emits pre = 0%nat
    ∧ created pre = [(runtimeRootNames r, runtimeSettings r)]
    ∧ silent t ∧ is_Some (st_emitMap state').
Proof.
  destruct (program_emit_normal (runtimeProgram r)
              (runtimeCompileState r (runtimeRootNames r)))
    as (t & state' & Hemit & Hs & _ & _ & Hmap); [by right; eexists|].
  specialize (Hmap (runtimeCompileState_usable _ _)).
  unfold runtimeCompile, runtimeCompile_awaiting, awaitProcessImports, fulfilled,
    runtimeEmit, runtimeEmitResult, runtimePreEmit, itemsOrAbsent, outputOf.
  revert Hemit.
  unfold runtimeProgram, runtimeSettings, runtimeRootNames, runtimeResolvedRootName.
  destruct r as [rootName sources bundle options]; cbn.
  assert (Hassert : assert (truthy_object (st_emitMap state')) None = mret tt)
    by (by destruct Hmap as [emitMap ->]).
  destruct sources as [sources|]; destruct (truthy_bool bundle) eqn:Hb; intros Hemit;
    cbn; rewrite Hemit; cbn; rewrite Hassert;
    match goal with |- context [er_emitSkipped ?e] => destruct (er_emitSkipped e) end;
    cbn; rewrite ?app_nil_r.
  all: first
    [ eexists [_; _; _; _], t, state'; by (do 6 (split; [reflexivity|]))
    | eexists [_; _; _; _; _], t, state'; by (do 6 (split; [reflexivity|]))
    | eexists [_; _; _; _; _; _], t, state'; by (do 6 (split; [reflexivity|])) ].
Qed.

Lemma compileEmit_run r :
  ∃ t state',
    compileEmit r = mkRun (EvCall OpEmit :: t) (Normal (state', compileEmitResult r))
    ∧ silent t.
Proof.
  destruct (program_emit_normal
              (if truthy_bool (c_bundle r)
               then setRootExports (compileProgram r) (head (compileResolved r))
               else compileProgram r)
              (compileState r))
    as (t & state' & Hemit & Hs & _); [by left|].
  by exists t, state'.
Qed.

(** The run of a [Compile] request, branch by branch. *)
Lemma compile_run r :
  compile r =
    let pre := [EvLog ">>> compile start"; EvCall OpProcessImports]
               ++ (if configSupplied r then [EvCall OpConfigure] else []) in
    let build := [EvCall (OpCreateProgram (c_rootNames r)
                            (getCompilationSettings (compileConfigured r).1));
                  EvCall OpGetPreEmitDiagnostics] in
    let respond skipped ds :=
      [EvPostMessage (CompileResponse (compileResult skipped ds));
       EvLog "<<< compile end"] in
    let emitted := events (compileEmit r)
                   ++ respond (er_emitSkipped (compileEmitResult r))
                              (er_diagnostics (compileEmitResult r)) in
    if configClean r then
      if is_empty (compilePreEmit r) then
        if truthy_bool (c_bundle r) then
          if Nat.eqb (length (compileResolved r)) 1
          then mkRun (pre ++ build ++ [EvConsoleWarn "Bundling"; EvCall OpSetRootExports]
                          ++ emitted)
                     (Normal tt)
          else mkRun (pre ++ build) (Thrown (AssertionFailed None))
        else mkRun (pre ++ build ++ emitted) (Normal tt)
      else mkRun (pre ++ build ++ respond true (compilePreEmit r)) (Normal tt)
    else mkRun (pre ++ respond true (default [] (compileConfigured r).2)) (Normal tt).
Proof.
  destruct (compileEmit_run r) as (t & state' & Hemit & _).
  revert Hemit.
  unfold compile, compile_awaiting, awaitProcessImports, fulfilled,
    compile_program, compileEmit, compileEmitResult, compilePreEmit,
    compileProgram, configClean, compileConfigured, compileResolved, compileState,
    configSupplied, configure.
  destruct r as [rootNames configPath config bundle outFile]; cbn.
  destruct config as [config|], configPath as [configPath|]; cbn;
    repeat match goal with
    | |- context [hostConfigure ?o ?p ?c] =>
        destruct (hostConfigure o p c) as [options response]; cbn
    | |- context [processConfigureResponse ?c ?p] =>
        destruct (processConfigureResponse c p) as [configDiagnostics|]; cbn
    | |- context [if ?b then _ else _] => destruct b eqn:?; cbn
    end;
    intros Hemit; rewrite ?Hemit; cbn; unfold compileResult;
    rewrite ?app_nil_r; try reflexivity.
  all: repeat match goal with
       | Hb : ?b = _ |- context [?b] => rewrite Hb
       | Hb : ?b = _, Hc : context [?b] |- _ => rewrite Hb in Hc
       end; cbn; try discriminate; try reflexivity.
  all: match goal with Hb : _ && false = true |- _ => by rewrite andb_false_r in Hb end.
Qed.

Lemma transpile_loop options entries : ∀ result,
  ∃ t,
    foldM (transpile_entry (transpileOptions options)) result entries
      = mkRun t (Normal (foldl (λ res '(fileName, inputText),
                                  object_set res fileName
                                    (transpiled options fileName inputText))
                               result entries))
    ∧ silent t.
Proof.
  induction entries as [|[fileName inputText] entries IH]; intros result.
  - exists []. split; [reflexivity|apply silent_nil].
  - destruct (IH (object_set result fileName (transpiled options fileName inputText)))
      as (t & Hrun & Hs).
    exists (EvCall (OpTranspileModule fileName) :: t). split.
    + cbn. unfold transpiled in Hrun. cbn zeta in Hrun. rewrite Hrun. reflexivity.
    + destruct Hs as (?&?&?&?). by repeat split.
Qed.

Lemma object_set_lookup (result : gmap string TranspileOnlyResult) fileName value k :
  object_set result fileName value !! k
  = if decide (fileName ≠ "__proto__" ∧ fileName = k) then Some value else result !! k.
Proof.
  unfold object_set. destruct (String.eqb_spec fileName "__proto__") as [->|Hne].
  - rewrite decide_False; [done|]. by intros [? _].
  - destruct (decide (fileName = k)) as [->|Hk].
    + rewrite lookup_insert_eq, decide_True; done.
    + rewrite lookup_insert_ne by done. rewrite decide_False; [done|]. by intros [_ ?].
Qed.

(** The object built by the loop over entries with distinct names: an
    entry for each name but [__proto__], and the properties it had. *)
Lemma foldl_object_set_lookup {V} (g : string → V → TranspileOnlyResult)
    (entries : list (string * V)) :
  ∀ (result : gmap string TranspileOnlyResult) k,
    NoDup entries.*1 →
    foldl (λ res '(f, v), object_set res f (g f v)) result entries !! k
    = match (list_to_map entries : gmap string V) !! k with
      | Some v => if decide (k = "__proto__") then result !! k else Some (g k v)
      | None => result !! k
      end.
Proof.
  induction entries as [|[f v] entries IH]; intros result k Hnd; [done|].
  apply NoDup_cons in Hnd as [Hf Hnd]. cbn. rewrite IH by done.
  rewrite !object_set_lookup.
  destruct (decide (f = k)) as [->|Hne].
  - rewrite lookup_insert_eq, (not_elem_of_list_to_map_1 entries k Hf).
    destruct (decide (k = "__proto__")) as [Hk|Hk].
    + rewrite decide_False; [done|]. by intros [? _].
    + by rewrite decide_True.
  - rewrite lookup_insert_ne by done.
    rewrite (decide_False (P := f ≠ "__proto__" ∧ f = k)) by (by intros [_ ?]).
    reflexivity.
Qed.

Lemma runtimeTranspile_run r :
  ∃ t, runtimeTranspile r
       = mkRun (t ++ [EvPostMessage (RuntimeTranspileResponse (transpileResult r))])
               (Normal tt)
       ∧ silent t.
Proof.
  unfold runtimeTranspile.
  destruct (transpile_loop (rt_options r) (Object_entries (rt_sources r)) ∅)
    as (t & Hrun & Hs).
  exists t. split; [|done].
  rewrite (bind_normal _ _ _ _ Hrun). reflexivity.
Qed.

(** An awaited import that is rejected ends the case there; one that is
    fulfilled lets it run as it does with a host that fulfils all. *)
Lemma compile_awaiting_run rejects r :
  compile_awaiting rejects r
  = match rejects (map (λ rootName, (rootName, rootName)) (c_rootNames r)) with
    | Some reason =>
        mkRun [EvLog ">>> compile start"; EvCall OpProcessImports] (Thrown (Rejected reason))
    | None => compile r
    end.
Proof.
  unfold compile, compile_awaiting, awaitProcessImports, fulfilled.
  by destruct (rejects _).
Qed.

Lemma runtimeCompile_awaiting_run rejects r :
  runtimeCompile_awaiting rejects r
  = match rc_sources r with
    | Some _ => runtimeCompile r
    | None =>
        match rejects [(runtimeResolvedRootName r, runtimeResolvedRootName r)] with
        | Some reason =>
            mkRun [EvLog ">>> runtime compile start"; EvCall OpResolveModules;
                   EvCall OpProcessImports]
                  (Thrown (Rejected reason))
        | None => runtimeCompile r
        end
    end.
Proof.
  unfold runtimeCompile, runtimeCompile_awaiting, awaitProcessImports, fulfilled,
    runtimeResolvedRootName.
  destruct (rc_sources r); [done|]. cbn. by destruct (rejects _).
Qed.

End Runs.

(** ** Properties of the dispatcher *)

Lemma close_after {A} t (c : Completion A) :
  mkRun t c ≫= (λ _, workerClose) =
  match c with
  | Normal _ => mkRun (t ++ [EvWorkerClose]) (Normal tt)
  | Thrown e => mkRun t (Thrown e)
  end.
Proof. by destruct c. Qed.

(** Splits the observers of a trace over its pieces and uses what is known
    of the pieces. *)
Ltac observe :=
  repeat progress
    (cbn [events completion posted emits closes created app Nat.add];
     rewrite ?posted_app, ?emits_app, ?closes_app, ?created_app, ?Nat.add_0_r;
     repeat match goal with
     | Hx : posted ?t = _ |- context [posted ?t] => rewrite Hx
     | Hx : emits ?t = _ |- context [emits ?t] => rewrite Hx
     | Hx : closes ?t = _ |- context [closes ?t] => rewrite Hx
     | Hx : created ?t = _ |- context [created ?t] => rewrite Hx
     end).

Lemma responds_posted run response :
  responds run response →
  posted (events run) = [response] ∧ closes (events run) = 1%nat
  ∧ completion run = Normal tt.
Proof.
  intros (Hc & t & Hev & Hp & Hcl). rewrite Hev. repeat split; observe; done.
Qed.

Section Dispatcher.
Context `{Engine}.

(** The run of the handler on a [RuntimeCompile] request: the emit runs
    once on the one program created, then the handler aborts or answers
    according to the emit result. *)
Lemma onmessage_runtimeCompile r :
  ∃ state',
    completion (runtimeEmit r) = Normal (state', runtimeEmitResult r)
    ∧ is_Some (st_emitMap state')
    ∧ emits (events (onmessage (RuntimeCompile r))) = 1%nat
    ∧ created (events (onmessage (RuntimeCompile r)))
      = [(runtimeRootNames r, runtimeSettings r)]
    ∧ if er_emitSkipped (runtimeEmitResult r)
      then aborts (onmessage (RuntimeCompile r))
                  (AssertionFailed (Some "Unexpected skip of the emit."))
      else responds (onmessage (RuntimeCompile r))
                    (RuntimeCompileResponse (itemsOrAbsent (runtimePreEmit r))
                                            (outputOf (rc_bundle r) state')).
Proof.
  destruct (runtimeCompile_run r)
    as (pre & t & state' & Hrun & Hemit & Hp & Hc & He & Hcr & (Hpt & Hct & Het & Hcrt) & Hmap).
  exists state'. rewrite Hemit. split; [done|]. split; [done|].
  unfold responds, aborts. rewrite onmessage_RuntimeCompile, Hrun.
  destruct (er_emitSkipped (runtimeEmitResult r)); rewrite close_after.
  - repeat split; observe; reflexivity.
  - split; [observe; reflexivity|]. split; [observe; reflexivity|].
    split; [reflexivity|].
    eexists. split; [reflexivity|]. split; observe; reflexivity.
Qed.

(** The run of the handler on a [Compile] request, branch by branch. *)
Lemma onmessage_compile r :
  let run := onmessage (Compile r) in
  let program := (c_rootNames r, getCompilationSettings (compileConfigured r).1) in
  if configClean r then
    created (events run) = [program] ∧
    if is_empty (compilePreEmit r) then
      if truthy_bool (c_bundle r) && negb (Nat.eqb (length (compileResolved r)) 1)
      then emits (events run) = 0%nat ∧ aborts run (AssertionFailed None)
      else emits (events run) = 1%nat
           ∧ responds run (CompileResponse
                             (compileResult (er_emitSkipped (compileEmitResult r))
                                            (er_diagnostics (compileEmitResult r))))
    else emits (events run) = 0%nat
         ∧ responds run (CompileResponse (compileResult true (compilePreEmit r)))
  else created (events run) = [] ∧ emits (events run) = 0%nat
       ∧ responds run (CompileResponse
                         (compileResult true (default [] (compileConfigured r).2))).
Proof.
  destruct (compileEmit_run r) as (t & state' & Hemit & (Hpt & Hct & Het & Hcrt)).
  unfold responds, aborts. rewrite onmessage_Compile, compile_run, Hemit. cbn zeta.
  destruct (configClean r), (is_empty (compilePreEmit r)),
    (truthy_bool (c_bundle r)), (Nat.eqb (length (compileResolved r)) 1),
    (configSupplied r);
    rewrite close_after; cbn [andb negb];
    repeat match goal with
    | |- _ ∧ _ => split
    | |- ∃ t, _ ++ [EvWorkerClose] = t ++ [EvWorkerClose] ∧ _ =>
        eexists; split; [reflexivity|]
    | |- ∃ t, _ = t ++ [EvWorkerClose] ∧ _ =>
        eexists; split; [rewrite ?app_assoc; reflexivity|]
    end; observe; try reflexivity.
Qed.

(** The run of the handler on a [RuntimeTranspile] request. *)
Lemma onmessage_runtimeTranspile r :
  responds (onmessage (RuntimeTranspile r)) (RuntimeTranspileResponse (transpileResult r))
  ∧ emits (events (onmessage (RuntimeTranspile r))) = 0%nat
  ∧ created (events (onmessage (RuntimeTranspile r))) = [].
Proof.
  destruct (runtimeTranspile_run r) as (t & Hrun & (Hpt & Hct & Het & Hcrt)).
  unfold responds. rewrite onmessage_RuntimeTranspile, Hrun, close_after.
  split; [|split; observe; reflexivity].
  split; [reflexivity|]. eexists. split; [reflexivity|]. split; observe; reflexivity.
Qed.

(** The run of the handler on a payload of no known kind. *)
Lemma onmessage_unhandled type :
  onmessage (Unhandled type)
  = mkRun [EvLog (unhandledMessage type); EvWorkerClose] (Normal tt).
Proof. reflexivity. Qed.

(** A request whose awaited import is rejected aborts there; any other
    request runs as it does with a host that fulfils all imports. *)
Lemma onmessage_awaiting_run rejects request :
  match rejection rejects request with
  | Some reason => aborts (onmessage_awaiting rejects request) (Rejected reason)
  | None => onmessage_awaiting rejects request = onmessage request
  end.
Proof.
  unfold rejection, onmessage, onmessage_awaiting.
  destruct request as [r|r|r|type]; cbn [awaitedImports mbind option_bind]; try done.
  - rewrite (compile_awaiting_run rejects r), (compile_awaiting_run fulfilled r).
    by destruct (rejects _).
  - rewrite (runtimeCompile_awaiting_run rejects r),
      (runtimeCompile_awaiting_run fulfilled r).
    destruct (rc_sources r); cbn [mbind option_bind]; [done|].
    by destruct (rejects _).
Qed.


(** C1 (as amended).  A request of one of the three known kinds gets
    exactly one response, posted before the worker is closed, unless the
    handler aborts, on the rejection of the import it awaits or on a
    failed assertion, and then no response is posted and the handler does
    not close the worker; a payload whose kind matches none of the three
    variants gets no response: the kind is logged and the worker is
    closed. *)
Theorem C1_one_response_unless_unhandled_or_aborted
    (rejects : Rejections) (request : CompilerRequest) :
  match request with
  | Unhandled type =>
      onmessage_awaiting rejects request
      = mkRun [EvLog (unhandledMessage type); EvWorkerClose] (Normal tt)
  | _ =>
      match rejection rejects request with
      | Some reason => aborts (onmessage_awaiting rejects request) (Rejected reason)
      | None =>
          (∃ response, responds (onmessage_awaiting rejects request) response)
          ∨ (∃ msg, aborts (onmessage_awaiting rejects request) (AssertionFailed msg))
      end
  end.
Proof.
  pose proof (onmessage_awaiting_run rejects request) as Hawait.
  destruct request as [r|r|r|type]; [| | |reflexivity];
    (destruct (rejection rejects _) as [reason|]; [exact Hawait|rewrite Hawait]).
  - pose proof (onmessage_compile r) as Hrun. cbn zeta in Hrun.
    destruct (configClean r); [destruct Hrun as [_ Hrun]|];
      [destruct (is_empty (compilePreEmit r));
       [destruct (truthy_bool (c_bundle r) && negb (Nat.eqb (length (compileResolved r)) 1))|]|].
    + right. eexists. apply Hrun.
    + left. eexists. apply Hrun.
    + left. eexists. apply Hrun.
    + left. eexists. apply Hrun.
  - destruct (onmessage_runtimeCompile r) as (state' & _ & _ & _ & _ & Hrun).
    destruct (er_emitSkipped (runtimeEmitResult r)); [right|left]; eexists; apply Hrun.
  - left. eexists. apply onmessage_runtimeTranspile.
Qed.

(** C2 (as amended).  A [Compile] request with [bundle] set and more than
    one resolved root module never has the engine emit.  When its
    configuration step and its program leave no diagnostics it fails the
    assertion, with no response posted; otherwise it is answered with
    [emitSkipped = true] and the diagnostics found, translated: those of
    the configuration step when there are any, else the filtered pre-emit
    diagnostics of the program. *)
Theorem C2_bundle_with_several_roots_aborts (r : CompilerRequestCompile) :
  truthy_bool (c_bundle r) = true →
  (1 < length (compileResolved r))%nat →
  emits (events (onmessage (Compile r))) = 0%nat
  ∧ if configClean r
    then match compilePreEmit r with
         | [] => aborts (onmessage (Compile r)) (AssertionFailed None)
         | reported =>
             responds (onmessage (Compile r))
               (CompileResponse
                  {| emitSkipped := true;
                     diagnostics := Some (fromTypeScriptDiagnostic reported) |})
         end
    else ∃ configDiagnostics,
           (compileConfigured r).2 = Some configDiagnostics
           ∧ configDiagnostics ≠ []
           ∧ responds (onmessage (Compile r))
               (CompileResponse
                  {| emitSkipped := true;
                     diagnostics := Some (fromTypeScriptDiagnostic configDiagnostics) |}).
Proof.
  intros Hbundle Hroots.
  pose proof (onmessage_compile r) as Hrun. cbn zeta in Hrun.
  unfold configClean in *.
  destruct ((compileConfigured r).2) as [[|d configDiagnostics]|]; cbn in Hrun |- *.
  2:{ destruct Hrun as (_ & Hemits & Hrun). split; [done|].
      by exists (d :: configDiagnostics). }
  all: destruct Hrun as [_ Hrun];
    destruct (compilePreEmit r) as [|d reported]; cbn in Hrun |- *;
    [ rewrite Hbundle in Hrun;
      destruct (Nat.eqb_spec (length (compileResolved r)) 1) as [Heq|_]; [lia|];
      cbn in Hrun; by destruct Hrun
    | by destruct Hrun ].
Qed.

Lemma filterIgnored_idempotent ds : filterIgnored (filterIgnored ds) = filterIgnored ds.
Proof.
  unfold filterIgnored. induction ds as [|d ds IH]; [done|].
  cbn. destruct (not_ignored d) eqn:Hd; [|done].
  cbn. by rewrite Hd, IH.
Qed.

Lemma filterIgnored_codes ds d : d ∈ filterIgnored ds → code d ∉ ignoredDiagnostics.
Proof.
  unfold filterIgnored. rewrite list_elem_of_In, filter_In.
  intros [_ Hd]. unfold not_ignored in Hd.
  apply negb_true_iff, bool_decide_eq_false in Hd. done.
Qed.

(** The items translated from filtered diagnostics carry no ignored code. *)
Lemma translated_filtered_codes ds item :
  item ∈ items (fromTypeScriptDiagnostic (filterIgnored ds)) →
  item_code item ∉ ignoredDiagnostics.
Proof.
  cbn. rewrite list_elem_of_In, in_map_iff. intros (d & <- & Hd).
  apply (filterIgnored_codes ds). by apply list_elem_of_In.
Qed.

Lemma itemsOrAbsent_filtered ds item :
  item ∈ default [] (itemsOrAbsent (filterIgnored ds)) →
  item_code item ∉ ignoredDiagnostics.
Proof.
  unfold itemsOrAbsent.
  destruct (negb (is_empty (items (fromTypeScriptDiagnostic (filterIgnored ds))))).
  - apply translated_filtered_codes.
  - cbn. by intros ?%not_elem_of_nil.
Qed.

Lemma compileResult_filtered skipped ds item :
  item ∈ from_option items [] (diagnostics (compileResult skipped (filterIgnored ds))) →
  item_code item ∉ ignoredDiagnostics.
Proof.
  unfold compileResult. cbn [diagnostics].
  destruct (negb (is_empty (filterIgnored ds))).
  - apply translated_filtered_codes.
  - cbn. by intros ?%not_elem_of_nil.
Qed.

(** C3 (as amended).  Filtering by the ignored set is idempotent and
    leaves no diagnostic with an ignored code; no such diagnostic appears
    in a response to a [RuntimeCompile] request, nor in a response to a
    [Compile] request that reports the pre-emit diagnostics of its
    program. *)
Theorem C3_ignored_codes_filtered_from_pre_emit :
  (∀ ds, filterIgnored (filterIgnored ds) = filterIgnored ds)
  ∧ (∀ ds d, d ∈ filterIgnored ds → code d ∉ ignoredDiagnostics)
  ∧ (∀ r response,
       response ∈ posted (events (onmessage (RuntimeCompile r))) →
       ¬ mentions_ignored response)
  ∧ (∀ r response,
       configClean r = true → compilePreEmit r ≠ [] →
       response ∈ posted (events (onmessage (Compile r))) →
       ¬ mentions_ignored response).
Proof.
  split; [apply filterIgnored_idempotent|]. split; [apply filterIgnored_codes|]. split.
  - intros r response Hin (item & Hitem & Hcode).
    destruct (onmessage_runtimeCompile r) as (state' & _ & _ & _ & _ & Hrun).
    destruct (er_emitSkipped (runtimeEmitResult r)).
    + destruct Hrun as (_ & Hposted & _). rewrite Hposted in Hin.
      by apply not_elem_of_nil in Hin.
    + apply responds_posted in Hrun as (Hposted & _). rewrite Hposted in Hin.
      apply list_elem_of_singleton in Hin as ->.
      by apply itemsOrAbsent_filtered in Hitem.
  - intros r response Hconfig Hpre Hin (item & Hitem & Hcode).
    pose proof (onmessage_compile r) as Hrun. cbn zeta in Hrun.
    rewrite Hconfig in Hrun. destruct Hrun as [_ Hrun].
    destruct (is_empty (compilePreEmit r)) eqn:Hempty.
    + unfold is_empty in Hempty. apply Nat.eqb_eq, nil_length_inv in Hempty. done.
    + destruct Hrun as [_ Hrun].
      apply responds_posted in Hrun as (Hposted & _). rewrite Hposted in Hin.
      apply list_elem_of_singleton in Hin as ->.
      by apply compileResult_filtered in Hitem.
Qed.

(** A [Compile] request that reaches the emit is answered with what the
    emit reported. *)
Lemma compile_reports_emit_result (r : CompilerRequestCompile) :
  configClean r = true →
  compilePreEmit r = [] →
  (truthy_bool (c_bundle r) = true → length (compileResolved r) = 1%nat) →
  responds (onmessage (Compile r))
    (CompileResponse
       {| emitSkipped := er_emitSkipped (compileEmitResult r);
          diagnostics := match er_diagnostics (compileEmitResult r) with
                         | [] => None
                         | ds => Some (fromTypeScriptDiagnostic ds)
                         end |})
  ∧ emits (events (onmessage (Compile r))) = 1%nat.
Proof.
  intros Hconfig Hpre Hroots.
  pose proof (onmessage_compile r) as Hrun. cbn zeta in Hrun.
  rewrite Hconfig, Hpre in Hrun. cbn in Hrun. destruct Hrun as [_ Hrun].
  assert (truthy_bool (c_bundle r) && negb (Nat.eqb (length (compileResolved r)) 1) = false)
    as Hguard.
  { destruct (truthy_bool (c_bundle r)); [|done]. by rewrite Hroots. }
  rewrite Hguard in Hrun. destruct Hrun as [Hemits Hrun]. split; [|done].
  unfold compileResult in Hrun. by destruct (er_diagnostics (compileEmitResult r)).
Qed.

(** C4 (as amended).  For a [Compile] request whose configuration step
    leaves no diagnostics, whose program yields zero filtered pre-emit
    diagnostics and which, when bundling, has exactly one resolved root
    module, the posted result has the [emitSkipped] the engine's emit
    reported and the translated diagnostics of the emit result, absent
    when the emit reported none. *)
Theorem C4_clean_program_reports_emit_result (r : CompilerRequestCompile) :
  configClean r = true →
  compilePreEmit r = [] →
  (truthy_bool (c_bundle r) = true → length (compileResolved r) = 1%nat) →
  posted (events (onmessage (Compile r)))
  = [CompileResponse
       {| emitSkipped := er_emitSkipped (compileEmitResult r);
          diagnostics := match er_diagnostics (compileEmitResult r) with
                         | [] => None
                         | ds => Some (fromTypeScriptDiagnostic ds)
                         end |}].
Proof.
  intros Hconfig Hpre Hroots.
  destruct (compile_reports_emit_result r Hconfig Hpre Hroots) as [Hrun _].
  by apply responds_posted in Hrun as (Hposted & _).
Qed.

(** C5.  A [RuntimeCompile] request whose emit reports [emitSkipped] makes
    the handler abort on the failed assertion with no response posted; a
    [Compile] request whose emit reports [emitSkipped] is answered, with
    [emitSkipped = true]. *)
Theorem C5_skipped_emit_fatal_for_runtime_compile_only :
  (∀ r, er_emitSkipped (runtimeEmitResult r) = true →
        aborts (onmessage (RuntimeCompile r))
               (AssertionFailed (Some "Unexpected skip of the emit."))
        ∧ emits (events (onmessage (RuntimeCompile r))) = 1%nat)
  ∧ (∀ r, configClean r = true → compilePreEmit r = [] →
          (truthy_bool (c_bundle r) = true → length (compileResolved r) = 1%nat) →
          er_emitSkipped (compileEmitResult r) = true →
          ∃ result, responds (onmessage (Compile r)) (CompileResponse result)
                    ∧ emitSkipped result = true).
Proof.
  split.
  - intros r Hskipped.
    destruct (onmessage_runtimeCompile r) as (state' & _ & _ & Hemits & _ & Hrun).
    rewrite Hskipped in Hrun. done.
  - intros r Hconfig Hpre Hroots Hskipped.
    destruct (compile_reports_emit_result r Hconfig Hpre Hroots) as [Hrun _].
    eexists. split; [exact Hrun|]. done.
Qed.

(** C6.  The response to a [RuntimeCompile] request, posted unless the
    emit was skipped, has two elements: the translated diagnostic items,
    absent when there are none, and [emitBundle] of the state when
    [bundle] is set, [emitMap] of the state otherwise. *)
Theorem C6_runtime_compile_response_shape (r : CompilerRequestRuntimeCompile) :
  ∃ state',
    completion (runtimeEmit r) = Normal (state', runtimeEmitResult r)
    ∧ posted (events (onmessage (RuntimeCompile r)))
      = if er_emitSkipped (runtimeEmitResult r) then []
        else [RuntimeCompileResponse
                match runtimePreEmit r with
                | [] => None
                | ds => Some (items (fromTypeScriptDiagnostic ds))
                end
                (if truthy_bool (rc_bundle r)
                 then OfEmitBundle (st_emitBundle state')
                 else OfEmitMap (st_emitMap state'))].
Proof.
  destruct (onmessage_runtimeCompile r) as (state' & Hemit & _ & _ & _ & Hrun).
  exists state'. split; [done|].
  destruct (er_emitSkipped (runtimeEmitResult r)).
  - by destruct Hrun as (_ & Hposted & _).
  - apply responds_posted in Hrun as (Hposted & _). rewrite Hposted.
    unfold itemsOrAbsent, outputOf. by destruct (runtimePreEmit r).
Qed.


Lemma nonempty_string_truthy text :
  text ≠ "" →
  truthy_string (Some text) = true ∧ string_length_truthy (Some text) = true.
Proof. by destruct text. Qed.

(** C7.  A [Compile] request that supplies a non-empty config source and a
    config path (a non-empty string, as the handler's test has it), and
    whose configuration yields one or more diagnostics, is answered with
    [emitSkipped = true] and those diagnostics, translated; no program is
    created and nothing is emitted. *)
Theorem C7_configuration_failure_short_circuits
    (r : CompilerRequestCompile) (config configPath : string)
    (configDiagnostics : list TsDiagnostic) :
  c_config r = Some config → config ≠ "" →
  c_configPath r = Some configPath → configPath ≠ "" →
  processConfigureResponse
    (configure (newHost (c_bundle r)) configPath config).2 configPath
    = Some configDiagnostics →
  configDiagnostics ≠ [] →
  responds (onmessage (Compile r))
    (CompileResponse {| emitSkipped := true;
                        diagnostics := Some (fromTypeScriptDiagnostic configDiagnostics) |})
  ∧ created (events (onmessage (Compile r))) = []
  ∧ emits (events (onmessage (Compile r))) = 0%nat.
Proof.
  intros Hconfig Hne HconfigPath HnePath Hresponse Hds.
  pose proof (onmessage_compile r) as Hrun. cbn zeta in Hrun.
  destruct (nonempty_string_truthy config Hne) as [Ht1 Ht2].
  destruct (nonempty_string_truthy configPath HnePath) as [Ht3 _].
  assert ((compileConfigured r).2 = Some configDiagnostics) as Hconfigured.
  { unfold compileConfigured, configSupplied.
    rewrite Hconfig, HconfigPath, Ht1, Ht2, Ht3. cbn [andb].
    revert Hresponse.
    by destruct (configure (newHost (c_bundle r)) configPath config). }
  unfold configClean in Hrun. rewrite Hconfigured in Hrun.
  destruct configDiagnostics as [|d ds]; [done|]. cbn in Hrun.
  destruct Hrun as (Hcreated & Hemits & Hrun). done.
Qed.

Lemma Object_assign_snoc target fragments (last : CompilerOptions) :
  Object_assign target (fragments ++ [last]) = last ∪ Object_assign target fragments.
Proof. unfold Object_assign. by rewrite foldl_app. Qed.

Lemma union_lookup (later earlier : CompilerOptions) k :
  (later ∪ earlier) !! k
  = match later !! k with Some v => Some v | None => earlier !! k end.
Proof.
  rewrite lookup_union. destruct (later !! k), (earlier !! k); reflexivity.
Qed.

(** C8.  Merging copies the fragments onto the target from left to right:
    of two fragments, the later one decides a key both set, and a key
    set in one of them only keeps its value; in any list, the last
    fragment decides its keys.  A [RuntimeCompile] request with [bundle]
    set puts the bundler fragment last, so the program is created with
    the bundler's value for each of the bundler's keys, whatever the
    caller's options; the options of a [RuntimeTranspile] request are the
    defaults overwritten per key by the caller's. *)
Theorem C8_options_merge_left_to_right :
  (∀ (target earlier later : CompilerOptions) k,
     _options (mergeOptions {| _options := target |} [earlier; later]) !! k
     = match later !! k with
       | Some v => Some v
       | None => match earlier !! k with Some v => Some v | None => target !! k end
       end)
  ∧ (∀ (target : CompilerOptions) fragments (last : CompilerOptions) k,
       Object_assign target (fragments ++ [last]) !! k
       = match last !! k with
         | Some v => Some v
         | None => Object_assign target fragments !! k
         end)
  ∧ (∀ options bundle, truthy_bool bundle = true →
       ∃ before, runtimeCompileOptions options bundle = before ++ [defaultBundlerOptions])
  ∧ (∀ r k v, truthy_bool (rc_bundle r) = true →
       defaultBundlerOptions !! k = Some v →
       ∃ rootNames settings,
         created (events (onmessage (RuntimeCompile r))) = [(rootNames, settings)]
         ∧ settings !! k = Some v)
  ∧ (∀ text k, text ≠ "" →
       transpileOptions (Some text) !! k
       = match convertCompilerOptions text !! k with
         | Some v => Some v
         | None => defaultTranspileOptions !! k
         end).
Proof.
  split; [|split; [|split; [|split]]].
  - intros target earlier later k. cbn. by rewrite !union_lookup.
  - intros target fragments last k. by rewrite Object_assign_snoc, union_lookup.
  - intros options bundle Hbundle. unfold runtimeCompileOptions. rewrite Hbundle.
    by eexists.
  - intros r k v Hbundle Hk.
    destruct (onmessage_runtimeCompile r) as (state' & _ & _ & _ & Hcreated & _).
    eexists _, _. split; [exact Hcreated|].
    unfold runtimeSettings, runtimeCompileOptions, getCompilationSettings, mergeOptions.
    rewrite Hbundle. cbn [_options].
    by rewrite Object_assign_snoc, union_lookup, Hk.
  - intros text k Hne. unfold transpileOptions.
    destruct (nonempty_string_truthy text Hne) as [-> _]. cbn.
    rewrite !union_lookup, lookup_empty.
    by destruct (convertCompilerOptions text !! k), (defaultTranspileOptions !! k).
Qed.

(** C9 (what the code does).  For sources with distinct file names the
    response to a [RuntimeTranspile] request is posted; its mapping has
    an entry for each file name other than [__proto__], holding as
    [source] the output text of transpiling that file's text, and no other
    key.  A file named [__proto__] gets no entry, where the claim asks for
    one entry per file name. *)
Theorem C9_transpile_entries_except_proto (r : CompilerRequestRuntimeTranspile) :
  NoDup (rt_sources r).*1 →
  ∃ result,
    posted (events (onmessage (RuntimeTranspile r))) = [RuntimeTranspileResponse result]
    ∧ (∀ fileName inputText,
         (fileName, inputText) ∈ rt_sources r → fileName ≠ "__proto__" →
         result !! fileName
         = Some {| source := outputText (transpileModule inputText fileName
                                           (transpileOptions (rt_options r)));
                   map_ := sourceMapText (transpileModule inputText fileName
                                            (transpileOptions (rt_options r))) |})
    ∧ result !! "__proto__" = None
    ∧ (∀ fileName, is_Some (result !! fileName) → fileName ∈ (rt_sources r).*1).
Proof.
  intros Hnd. exists (transpileResult r).
  destruct (onmessage_runtimeTranspile r) as [Hrun _].
  apply responds_posted in Hrun as (Hposted & _). split; [done|].
  assert (∀ k, transpileResult r !! k
               = match (list_to_map (rt_sources r) : gmap string string) !! k with
                 | Some v => if decide (k = "__proto__") then None
                             else Some (transpiled (rt_options r) k v)
                 | None => None
                 end) as Hlookup.
  { intros k. unfold transpileResult, Object_entries.
    by rewrite (foldl_object_set_lookup (transpiled (rt_options r))). }
  split; [|split].
  - intros fileName inputText Hin Hne. rewrite Hlookup.
    rewrite (elem_of_list_to_map_1 _ _ _ Hnd Hin). by rewrite decide_False.
  - rewrite Hlookup. destruct (list_to_map _ !! _); [|done]. by rewrite decide_True.
  - intros fileName [entry Hentry]. rewrite Hlookup in Hentry.
    destruct (list_to_map (rt_sources r) !! fileName) as [v|] eqn:Hv; [|done].
    apply elem_of_list_to_map_2 in Hv. apply list_elem_of_fmap. by exists (fileName, v).
Qed.

(** C10 (as amended).  A [RuntimeCompile] request has the engine emit
    exactly once, whatever the pre-emit diagnostics.  With filtered
    pre-emit diagnostics that are not empty, the one response carries
    both their translation, which is not empty, and the emitted output
    when the emit was not skipped; when it was skipped the handler aborts
    on the failed assertion and no response is posted. *)
Theorem C10_runtime_compile_emits_despite_diagnostics (r : CompilerRequestRuntimeCompile) :
  emits (events (onmessage (RuntimeCompile r))) = 1%nat
  ∧ (runtimePreEmit r ≠ [] →
     if er_emitSkipped (runtimeEmitResult r)
     then aborts (onmessage (RuntimeCompile r))
                 (AssertionFailed (Some "Unexpected skip of the emit."))
     else ∃ state' translated,
            completion (runtimeEmit r) = Normal (state', runtimeEmitResult r)
            ∧ translated = items (fromTypeScriptDiagnostic (runtimePreEmit r))
            ∧ translated ≠ []
            ∧ posted (events (onmessage (RuntimeCompile r)))
              = [RuntimeCompileResponse (Some translated)
                   (if truthy_bool (rc_bundle r)
                    then OfEmitBundle (st_emitBundle state')
                    else OfEmitMap (st_emitMap state'))]).
Proof.
  destruct (onmessage_runtimeCompile r) as (state' & Hemit & _ & Hemits & _ & Hrun).
  split; [done|]. intros Hpre.
  destruct (er_emitSkipped (runtimeEmitResult r)); [done|].
  apply responds_posted in Hrun as (Hposted & _).
  exists state', (items (fromTypeScriptDiagnostic (runtimePreEmit r))).
  split; [done|]. split; [done|]. split.
  - cbn. by destruct (runtimePreEmit r).
  - rewrite Hposted. unfold itemsOrAbsent, outputOf. by destruct (runtimePreEmit r).
Qed.

End Dispatcher.

(** C1, the claim as stated fails: a payload of no known kind gets no
    response. *)
Lemma C1_unhandled_kind_counterexample :
  ¬ ∃ response, posted (events (@onmessage cleanEngine (Unhandled 3))) = [response].
Proof. intros [response Hposted]. discriminate Hposted. Qed.

(** C2, the claim as stated fails: bundling two roots whose program has a
    diagnostic is answered with that diagnostic, and nothing is raised. *)
Lemma C2_diagnostics_first_counterexample :
  ¬ (truthy_bool (c_bundle bundleTwo) = true →
     (1 < length (@compileResolved failingEngine bundleTwo))%nat →
     ∃ e, completion (@onmessage failingEngine (Compile bundleTwo)) = Thrown e).
Proof.
  intros Hclaim. destruct Hclaim as [e He]; [reflexivity|cbn; lia|].
  vm_compute in He. discriminate He.
Qed.

Lemma C2_bundle_with_several_roots_aborts_witness :
  emits (events (@onmessage cleanEngine (Compile bundleTwo))) = 0%nat
  ∧ aborts (@onmessage cleanEngine (Compile bundleTwo)) (AssertionFailed None).
Proof.
  apply (@C2_bundle_with_several_roots_aborts cleanEngine bundleTwo).
  - reflexivity.
  - cbn. lia.
Defined.

(** C3, the claim as stated fails: the diagnostics of the configuration
    step are not filtered, so a response to a [Compile] request can carry
    a diagnostic whose code is in the ignored set. *)
Lemma C3_configuration_diagnostics_counterexample :
  ¬ (∀ response,
       response ∈ posted (events (@onmessage configEngine (Compile compileConfig))) →
       ¬ @mentions_ignored configEngine response).
Proof.
  intros Hclaim.
  apply (Hclaim (CompileResponse
                   {| emitSkipped := true;
                      diagnostics := Some (fromTypeScriptDiagnostic [diagnosticOf 5009]) |})).
  - vm_compute. constructor.
  - exists (parseDiagnostic (diagnosticOf 5009)). split.
    + cbn. constructor.
    + cbn. set_solver.
Qed.

Lemma C3_ignored_codes_filtered_from_pre_emit_witness :
(code (diagnosticOf 2322) ∉ @ignoredDiagnostics failingEngine)
  ∧ ¬ @mentions_ignored failingEngine
        (RuntimeCompileResponse (Some [parseDiagnostic (diagnosticOf 2322)])
                                (OfEmitMap (Some {[ "a.ts.js" := "compiled" ]})))
  ∧ ¬ @mentions_ignored failingEngine
        (CompileResponse
           {| emitSkipped := true;
              diagnostics := Some (fromTypeScriptDiagnostic [diagnosticOf 2322]) |}).
Proof.
  destruct (@C3_ignored_codes_filtered_from_pre_emit failingEngine)
    as (_ & Hfilter & Hruntime & Hcompile).
  split; [|split].
  - apply (Hfilter [diagnosticOf 2691; diagnosticOf 2322]). vm_compute. constructor.
  - apply (Hruntime runtimeOne). vm_compute. constructor.
  - apply (Hcompile compileOne).
    + reflexivity.
    + vm_compute. discriminate.
    + vm_compute. constructor.
Defined.

(** C4, the claim as stated fails: a program without pre-emit diagnostics
    whose emit is skipped is answered with [emitSkipped = true] and the
    diagnostics of the emit. *)
Lemma C4_skipped_emit_counterexample :
  ¬ (@compilePreEmit skippingEngine compileOne = [] →
     posted (events (@onmessage skippingEngine (Compile compileOne)))
     = [CompileResponse {| emitSkipped := false; diagnostics := None |}]).
Proof.
  intros Hclaim. specialize (Hclaim eq_refl).
  vm_compute in Hclaim. discriminate Hclaim.
Qed.

Lemma C4_clean_program_reports_emit_result_witness :
  posted (events (@onmessage cleanEngine (Compile compileOne)))
  = [CompileResponse {| emitSkipped := false; diagnostics := None |}].
Proof.
  apply (@C4_clean_program_reports_emit_result cleanEngine compileOne).
  - reflexivity.
  - reflexivity.
  - intros Hbundle. discriminate Hbundle.
Defined.

Lemma C5_skipped_emit_fatal_for_runtime_compile_only_witness :
  aborts (@onmessage skippingEngine (RuntimeCompile runtimeOne))
         (AssertionFailed (Some "Unexpected skip of the emit."))
  ∧ ∃ result,
      responds (@onmessage skippingEngine (Compile compileOne)) (CompileResponse result)
      ∧ emitSkipped result = true.
Proof.
  destruct (@C5_skipped_emit_fatal_for_runtime_compile_only skippingEngine)
    as [Hruntime Hcompile].
  split.
  - apply (Hruntime runtimeOne). reflexivity.
  - apply (Hcompile compileOne).
    + reflexivity.
    + reflexivity.
    + intros Hbundle. discriminate Hbundle.
    + reflexivity.
Defined.

Lemma C7_configuration_failure_short_circuits_witness :
  responds (@onmessage configEngine (Compile compileConfig))
    (CompileResponse
       {| emitSkipped := true;
          diagnostics := Some (fromTypeScriptDiagnostic [diagnosticOf 5009]) |})
  ∧ created (events (@onmessage configEngine (Compile compileConfig))) = []
  ∧ emits (events (@onmessage configEngine (Compile compileConfig))) = 0%nat.
Proof.
  apply (@C7_configuration_failure_short_circuits configEngine compileConfig
           "{}" "tsconfig.json" [diagnosticOf 5009]).
  - reflexivity.
  - discriminate.
  - reflexivity.
  - discriminate.
  - reflexivity.
  - discriminate.
Defined.

Lemma C8_options_merge_left_to_right_witness :
  (∃ before, @runtimeCompileOptions cleanEngine (Some "commonjs") (Some true)
             = before ++ [@defaultBundlerOptions cleanEngine])
  ∧ (∃ rootNames settings,
       created (events (@onmessage cleanEngine (RuntimeCompile runtimeBundle)))
       = [(rootNames, settings)]
       ∧ settings !! "module" = Some (JsStr "amd"))
  ∧ @transpileOptions cleanEngine (Some "commonjs") !! "module" = Some (JsStr "commonjs").
Proof.
  destruct (@C8_options_merge_left_to_right cleanEngine)
    as (_ & _ & Hlast & Hbundler & Htranspile).
  split; [|split].
  - apply Hlast. reflexivity.
  - apply (Hbundler runtimeBundle).
    + reflexivity.
    + vm_compute. reflexivity.
  - rewrite Htranspile by discriminate. vm_compute. reflexivity.
Defined.

(** C9, at a file named [__proto__]: the response has no entry for it. *)
Lemma C9_transpile_entries_except_proto_witness :
  ("__proto__", "let a") ∈ rt_sources transpileProto
  ∧ ∃ result,
      posted (events (@onmessage cleanEngine (RuntimeTranspile transpileProto)))
      = [RuntimeTranspileResponse result]
      ∧ result !! "__proto__" = None.
Proof.
  split; [apply list_elem_of_singleton; reflexivity|].
  destruct (@C9_transpile_entries_except_proto cleanEngine transpileProto)
    as (result & Hposted & _ & Hproto & _).
  - cbn. apply NoDup_singleton.
  - by exists result.
Defined.

(** C10, the claim as stated fails: with a pre-emit diagnostic and a
    skipped emit no response is posted, so none carries the diagnostic
    and the output. *)
Lemma C10_skipped_emit_counterexample :
  ¬ (@runtimePreEmit failingSkippingEngine runtimeOne ≠ [] →
     ∃ translated output,
       translated ≠ []
       ∧ posted (events (@onmessage failingSkippingEngine (RuntimeCompile runtimeOne)))
         = [RuntimeCompileResponse (Some translated) output]).
Proof.
  intros Hclaim. destruct Hclaim as (translated & output & _ & Hposted).
  - vm_compute. discriminate.
  - vm_compute in Hposted. discriminate Hposted.
Qed.

Lemma C10_runtime_compile_emits_despite_diagnostics_witness :
  (∃ state' translated,
     completion (@runtimeEmit failingEngine runtimeOne)
     = Normal (state', @runtimeEmitResult failingEngine runtimeOne)
     ∧ translated = items (fromTypeScriptDiagnostic (@runtimePreEmit failingEngine runtimeOne))
     ∧ translated ≠ []
     ∧ posted (events (@onmessage failingEngine (RuntimeCompile runtimeOne)))
       = [RuntimeCompileResponse (Some translated) (OfEmitMap (st_emitMap state'))])
  ∧ aborts (@onmessage failingSkippingEngine (RuntimeCompile runtimeOne))
           (AssertionFailed (Some "Unexpected skip of the emit.")).
Proof.
  split.
  - apply (proj2 (@C10_runtime_compile_emits_despite_diagnostics failingEngine runtimeOne)).
    vm_compute. discriminate.
  - apply (proj2 (@C10_runtime_compile_emits_despite_diagnostics
                    failingSkippingEngine runtimeOne)).
    vm_compute. discriminate.
Defined.

(** ** Concrete runs *)

(** The spec's example of order-sensitive merging: [strict: true] then
    [strict: false] yields [strict: false]. *)
Example merge_strict_true_then_false :
  _options (mergeOptions {| _options := ∅ |}
              [{[ "strict" := JsBool true ]}; {[ "strict" := JsBool false ]}])
    !! "strict" = Some (JsBool false).
Proof. vm_compute. reflexivity. Qed.

(** A bundler fragment after [strict: true] and a caller override of
    [module] keeps [strict: true] and yields [module: amd]. *)
Example merge_bundler_last :
  let merged := _options (mergeOptions {| _options := ∅ |}
                            [{[ "strict" := JsBool true ]};
                             {[ "module" := JsStr "commonjs" ]};
                             {[ "module" := JsStr "amd" ]}]) in
  merged !! "strict" = Some (JsBool true) ∧ merged !! "module" = Some (JsStr "amd").
Proof. vm_compute. split; reflexivity. Qed.

Example compile_clean_run :
  posted (events (@onmessage cleanEngine (Compile compileOne)))
  = [CompileResponse {| emitSkipped := false; diagnostics := None |}].
Proof. vm_compute. reflexivity. Qed.

Example runtime_compile_run :
  posted (events (@onmessage cleanEngine (RuntimeCompile runtimeOne)))
  = [RuntimeCompileResponse None (OfEmitMap (Some {[ "a.ts.js" := "compiled" ]}))].
Proof. vm_compute. reflexivity. Qed.

Example runtime_bundle_run :
  posted (events (@onmessage cleanEngine (RuntimeCompile runtimeBundle)))
  = [RuntimeCompileResponse None (OfEmitBundle (Some "compiled"))].
Proof. vm_compute. reflexivity. Qed.

Example runtime_transpile_run :
  events (@onmessage cleanEngine (RuntimeTranspile transpileTwo))
  = [EvCall (OpTranspileModule "b.ts"); EvCall (OpTranspileModule "a.ts");
     EvPostMessage
       (RuntimeTranspileResponse
          {[ "a.ts" := {| source := "let a"; map_ := None |};
             "b.ts" := {| source := "let b"; map_ := None |} ]});
     EvWorkerClose].
Proof. vm_compute. reflexivity. Qed.

(** A file named [__proto__] is transpiled and then lost. *)
Example runtime_transpile_proto_run :
  events (@onmessage cleanEngine (RuntimeTranspile transpileProto))
  = [EvCall (OpTranspileModule "__proto__");
     EvPostMessage (RuntimeTranspileResponse ∅); EvWorkerClose].
Proof. vm_compute. reflexivity. Qed.

Example unhandled_run :
  events (@onmessage cleanEngine (Unhandled 3))
  = [EvLog "!!! unhandled CompilerRequestType: 3 (undefined)"; EvWorkerClose].
Proof. vm_compute. reflexivity. Qed.

(** A [Compile] request whose import the host fails. *)
Example rejected_import_run :
  @onmessage_awaiting cleanEngine (failing "not found") (Compile compileOne)
  = mkRun [EvLog ">>> compile start"; EvCall OpProcessImports]
          (Thrown (Rejected "not found")).
Proof. reflexivity. Qed.

(** ** Distinct names: [Array.from(new Set(...))] *)

Lemma Set_add_elem_of set x y : y ∈ Set_add set x ↔ y ∈ set ∨ y = x.
Proof.
  unfold Set_add. case_bool_decide as Hx.
  - split; [by left|]. intros [Hy| ->]; done.
  - rewrite elem_of_app, list_elem_of_singleton. done.
Qed.

Lemma Set_add_NoDup set x : NoDup set → NoDup (Set_add set x).
Proof.
  intros Hnd. unfold Set_add. case_bool_decide as Hx; [done|].
  apply NoDup_app. split; [done|]. split; [|apply NoDup_singleton].
  intros y Hy ->%list_elem_of_singleton. done.
Qed.

Lemma foldl_Set_add_elem_of xs : ∀ set y,
  y ∈ foldl Set_add set xs ↔ y ∈ set ∨ y ∈ xs.
Proof.
  induction xs as [|x xs IH]; intros set y; cbn.
  - rewrite elem_of_nil. tauto.
  - rewrite IH, Set_add_elem_of, elem_of_cons. tauto.
Qed.

Lemma foldl_Set_add_NoDup xs : ∀ set, NoDup set → NoDup (foldl Set_add set xs).
Proof.
  induction xs as [|x xs IH]; intros set Hnd; cbn; [done|].
  by apply IH, Set_add_NoDup.
Qed.

Lemma foldl_Set_add_cons xs : ∀ set x,
  foldl Set_add (x :: set) xs = x :: foldl Set_add set (filter (λ y, y ≠ x) xs).
Proof.
  induction xs as [|y xs IH]; intros set x; [done|].
  cbn [foldl]. destruct (decide (y = x)) as [->|Hne].
  - rewrite filter_cons_False by (intros Hx; by apply Hx).
    unfold Set_add at 2. rewrite bool_decide_eq_true_2 by left. apply IH.
  - rewrite filter_cons_True by done. cbn [foldl].
    unfold Set_add at 2 4. destruct (decide (y ∈ set)) as [Hin|Hnin].
    + rewrite !bool_decide_eq_true_2 by (done || by right). apply IH.
    + rewrite !bool_decide_eq_false_2
        by (done || (rewrite elem_of_cons; intros [?|?]; done)).
      apply (IH (set ++ [y]) x).
Qed.

Lemma Array_from_Set_cons x xs :
  Array_from_Set (x :: xs) = x :: Array_from_Set (filter (λ y, y ≠ x) xs).
Proof.
  unfold Array_from_Set. cbn [foldl]. unfold Set_add at 2.
  rewrite bool_decide_eq_false_2 by apply not_elem_of_nil.
  apply foldl_Set_add_cons.
Qed.

Lemma filter_ne_id (x : string) (xs : list string) :
  x ∉ xs → filter (λ y, y ≠ x) xs = xs.
Proof.
  induction xs as [|y xs IH]; intros Hx; [done|].
  apply not_elem_of_cons in Hx as [Hne Hx].
  rewrite filter_cons_True by done. f_equal. by apply IH.
Qed.

(** X1.  The distinct names come out in the order of their first
    occurrence: a name is reported before another exactly when its first
    occurrence comes first.  Stated on the list: the first name, then the
    distinct names of the rest without it, so that [a; b; a] gives
    [a; b]. *)
Theorem X1_distinct_names_first_occurrence_order :
  (∀ x xs, Array_from_Set (x :: xs) = x :: Array_from_Set (filter (λ y, y ≠ x) xs))
  ∧ (∀ a b, a ≠ b → Array_from_Set [a; b; a] = [a; b]).
Proof.
  split; [apply Array_from_Set_cons|]. intros a b Hne.
  rewrite Array_from_Set_cons.
  rewrite filter_cons_True by done.
  rewrite filter_cons_False by (intros Hx; by apply Hx).
  rewrite filter_nil. by rewrite Array_from_Set_cons.
Qed.

(** X2.  Names that are already distinct are reported as they are, in
    their order; in particular reporting is idempotent. *)
Theorem X2_distinct_names_fixed_point :
  (∀ xs, NoDup xs → Array_from_Set xs = xs)
  ∧ (∀ xs, Array_from_Set (Array_from_Set xs) = Array_from_Set xs).
Proof.
  assert (∀ xs, NoDup xs → Array_from_Set xs = xs) as Hfix.
  { induction xs as [|x xs IH]; intros Hnd; [done|].
    apply NoDup_cons in Hnd as [Hx Hnd].
    by rewrite Array_from_Set_cons, filter_ne_id, IH. }
  split; [done|]. intros xs. apply Hfix, foldl_Set_add_NoDup, NoDup_nil_2.
Qed.

Lemma X2_distinct_names_fixed_point_witness :
  Array_from_Set ["env"; "wasi"] = ["env"; "wasi"].
Proof.
  apply (proj1 X2_distinct_names_fixed_point).
  apply NoDup_cons. split; [|apply NoDup_singleton].
  intros Hin%list_elem_of_singleton. discriminate Hin.
Defined.

Section Wasm.
Context `{WasmEngine}.

(** X3.  When the compilation of the binary is rejected the handler does
    nothing at all: no log line, no response, no close.  Otherwise it
    posts exactly one response and then closes the worker, and each of the
    two lists of the response has no duplicates and holds exactly the
    module names of the imports, respectively the names of the exports. *)
Theorem X3_wasm_lists_are_the_distinct_names (binary : string) :
  match WebAssembly_compile (base64ToUint8Array binary) with
  | None =>
      wasm_events (wasmOnmessage binary) = [] ∧ wasm_returned (wasmOnmessage binary) = false
  | Some compiled =>
      ∃ importList exportList,
        wasm_events (wasmOnmessage binary)
        = [WasmLog ">>> WASM compile start"; WasmPostMessage importList exportList;
           WasmLog "<<< WASM compile end"; WasmWorkerClose]
        ∧ wasm_returned (wasmOnmessage binary) = true
        ∧ NoDup importList ∧ NoDup exportList
        ∧ (∀ m, m ∈ importList
                ↔ ∃ d, d ∈ WebAssembly_Module_imports compiled ∧ imp_module d = m)
        ∧ (∀ n, n ∈ exportList
                ↔ ∃ d, d ∈ WebAssembly_Module_exports compiled ∧ exp_name d = n)
  end.
Proof.
  unfold wasmOnmessage.
  destruct (WebAssembly_compile (base64ToUint8Array binary)) as [compiled|]; [|done].
  eexists _, _. split; [reflexivity|]. split; [reflexivity|].
  split; [apply foldl_Set_add_NoDup, NoDup_nil_2|].
  split; [apply foldl_Set_add_NoDup, NoDup_nil_2|].
  split; intros x; unfold Array_from_Set;
    rewrite foldl_Set_add_elem_of, elem_of_nil, list_elem_of_fmap;
    (split; [intros [[]|(d & -> & Hd)]; by exists d
            |intros (d & Hd & <-); right; by exists d]).
Qed.

End Wasm.

(** A binary importing [env] twice and [wasi] once, and one that is
    rejected. *)
Example wasm_runs :
  wasm_events (@wasmOnmessage scriptedWasm "AGFzbQ")
  = [WasmLog ">>> WASM compile start";
     WasmPostMessage ["env"; "wasi"] ["main"; "memory"];
     WasmLog "<<< WASM compile end"; WasmWorkerClose]
  ∧ wasm_events (@wasmOnmessage scriptedWasm "") = [].
Proof. split; vm_compute; reflexivity. Qed.

(** ** The engine calls of the handler of [compilerMain] *)

Lemma calls_app t1 t2 : calls (t1 ++ t2) = calls t1 ++ calls t2.
Proof.
  induction t1 as [|e t1 IH]; [done|].
  destruct e; simpl; by rewrite ?IH.
Qed.

Section Calls.
Context `{Engine}.

Local Arguments program_emit : simpl never.
Local Arguments filterIgnored : simpl never.

Lemma createWriteFile_calls state fileName data :
  calls (events (createWriteFile state fileName data)) = [].
Proof.
  unfold createWriteFile.
  destruct (st_type state), (truthy_bool (st_bundle state)); try done.
  - by destruct (st_outFile state) as [outFile|]; [destruct (negb _)|].
  - by destruct (st_emitMap state).
  - by destruct (st_emitMap state).
Qed.

Lemma writeFiles_calls files : ∀ state,
  calls (events (foldM (λ st '(fileName, data), createWriteFile st fileName data)
                       state files)) = [].
Proof.
  induction files as [|[fileName data] files IH]; intros state; [done|].
  cbn [foldM]. unfold mbind, Run_bind.
  pose proof (createWriteFile_calls state fileName data) as Hfirst.
  destruct (completion (createWriteFile state fileName data)) as [state'|e];
    cbn [events]; [|done].
  by rewrite calls_app, Hfirst, IH.
Qed.

Lemma program_emit_calls program state :
  calls (events (program_emit program state)) = [OpEmit].
Proof.
  unfold program_emit. rewrite tell_bind. cbn [events calls]. f_equal.
  unfold mbind, Run_bind.
  pose proof (writeFiles_calls (emit program).1 state) as Hwrites.
  destruct (completion (foldM _ state (emit program).1)); cbn [events]; [|done].
  by rewrite calls_app, Hwrites.
Qed.

(** The engine calls of a [Compile] request, branch by branch. *)
Lemma onmessage_compile_calls r :
  calls (events (onmessage (Compile r)))
  = [OpProcessImports]
    ++ (if configSupplied r then [OpConfigure] else [])
    ++ (if configClean r
        then [OpCreateProgram (c_rootNames r)
                (getCompilationSettings (compileConfigured r).1);
              OpGetPreEmitDiagnostics]
             ++ (if is_empty (compilePreEmit r)
                 then if truthy_bool (c_bundle r)
                      then if Nat.eqb (length (compileResolved r)) 1
                           then [OpSetRootExports; OpEmit]
                           else []
                      else [OpEmit]
                 else [])
        else []).
Proof.
  pose proof (program_emit_calls
                (if truthy_bool (c_bundle r)
                 then setRootExports (compileProgram r) (head (compileResolved r))
                 else compileProgram r)
                (compileState r)) as Hemit.
  fold (compileEmit r) in Hemit.
  rewrite onmessage_Compile, compile_run. cbn zeta.
  destruct (configClean r), (is_empty (compilePreEmit r)),
    (truthy_bool (c_bundle r)), (Nat.eqb (length (compileResolved r)) 1),
    (configSupplied r);
    rewrite close_after; cbn [events]; rewrite ?calls_app, ?Hemit; reflexivity.
Qed.

(** The engine calls of a [RuntimeCompile] request. *)
Lemma onmessage_runtimeCompile_calls r :
  calls (events (onmessage (RuntimeCompile r)))
  = match rc_sources r with
    | Some _ => [OpProcessLocalImports]
    | None => [OpResolveModules; OpProcessImports]
    end
    ++ [OpCreateProgram (runtimeRootNames r) (runtimeSettings r)]
    ++ (if truthy_bool (rc_bundle r) then [OpSetRootExports] else [])
    ++ [OpGetPreEmitDiagnostics; OpEmit].
Proof.
  pose proof (program_emit_calls (runtimeProgram r)
                (runtimeCompileState r (runtimeRootNames r))) as Hcalls.
  destruct (program_emit_normal (runtimeProgram r)
              (runtimeCompileState r (runtimeRootNames r)))
    as (t & state' & Hemit & _ & _ & _ & Hmap); [by right; eexists|].
  specialize (Hmap (runtimeCompileState_usable _ _)).
  rewrite Hemit in Hcalls. cbn [events calls] in Hcalls.
  assert (calls t = []) as Ht by congruence. clear Hcalls.
  assert (Hassert : assert (truthy_object (st_emitMap state')) None = mret tt)
    by (by destruct Hmap as [emitMap ->]).
  revert Hemit.
  unfold onmessage, onmessage_awaiting, runtimeCompile_awaiting, awaitProcessImports,
    fulfilled, runtimeProgram, runtimeSettings, runtimeRootNames,
    runtimeResolvedRootName.
  destruct r as [rootName sources bundle options]; cbn.
  destruct sources as [sources|]; destruct (truthy_bool bundle) eqn:Hb; intros Hemit;
    cbn; rewrite Hemit; cbn; rewrite Hassert;
    match goal with |- context [er_emitSkipped ?e] => destruct (er_emitSkipped e) end;
    cbn; rewrite ?calls_app, ?Ht; reflexivity.
Qed.

End Calls.

(** ** Further properties of the dispatcher *)

Lemma is_empty_nil {A} (l : list A) : is_empty l = true ↔ l = [].
Proof. by destruct l. Qed.

Lemma compileResult_diagnostics skipped ds :
  diagnostics (compileResult skipped ds) = None
  ∨ ∃ ds', ds' ≠ [] ∧ diagnostics (compileResult skipped ds)
                       = Some (fromTypeScriptDiagnostic ds').
Proof.
  destruct ds as [|d ds]; [by left|]. right. by exists (d :: ds).
Qed.

Lemma itemsOrAbsent_not_empty ds : itemsOrAbsent ds ≠ Some [].
Proof. by destruct ds. Qed.

Section More.
Context `{Engine}.

(** What a [Compile] request posts is one of the results the handler
    builds, with [emitSkipped] set unless the emit ran. *)
Lemma compile_posted r response :
  response ∈ posted (events (onmessage (Compile r))) →
  ∃ skipped ds,
    response = CompileResponse (compileResult skipped ds)
    ∧ (skipped = false →
       emits (events (onmessage (Compile r))) = 1%nat
       ∧ er_emitSkipped (compileEmitResult r) = false
       ∧ configClean r = true ∧ compilePreEmit r = []).
Proof.
  intros Hin.
  pose proof (onmessage_compile r) as Hrun. cbn zeta in Hrun.
  destruct (configClean r).
  - destruct Hrun as [_ Hrun].
    destruct (is_empty (compilePreEmit r)) eqn:Hempty.
    + apply is_empty_nil in Hempty.
      destruct (truthy_bool (c_bundle r) && negb (Nat.eqb (length (compileResolved r)) 1)).
      * destruct Hrun as (_ & _ & Hposted & _). rewrite Hposted in Hin.
        by apply not_elem_of_nil in Hin.
      * destruct Hrun as [Hemits Hrun].
        apply responds_posted in Hrun as (Hposted & _). rewrite Hposted in Hin.
        apply list_elem_of_singleton in Hin as ->. eexists _, _. split; [done|].
        by intros ->.
    + destruct Hrun as [_ Hrun].
      apply responds_posted in Hrun as (Hposted & _). rewrite Hposted in Hin.
      apply list_elem_of_singleton in Hin as ->. eexists _, _. split; [done|]. done.
  - destruct Hrun as (_ & _ & Hrun).
    apply responds_posted in Hrun as (Hposted & _). rewrite Hposted in Hin.
    apply list_elem_of_singleton in Hin as ->. eexists _, _. split; [done|]. done.
Qed.

(** X4.  The engine calls of a [RuntimeCompile] request, whatever its
    diagnostics and emit result: with local sources the host is never
    asked for modules (only [processLocalImports] runs, on the root name
    as given); without them the root name is resolved and then imported
    from the host.  Then the one program is created from the names so
    obtained, its root exports are set first when bundling, and the emit
    is the last call. *)
Theorem X4_runtime_compile_engine_calls (r : CompilerRequestRuntimeCompile) :
  calls (events (onmessage (RuntimeCompile r)))
  = match rc_sources r with
    | Some _ => [OpProcessLocalImports]
    | None => [OpResolveModules; OpProcessImports]
    end
    ++ [OpCreateProgram (runtimeRootNames r) (runtimeSettings r)]
    ++ (if truthy_bool (rc_bundle r) then [OpSetRootExports] else [])
    ++ [OpGetPreEmitDiagnostics; OpEmit]
  ∧ runtimeRootNames r
    = match rc_sources r with
      | Some sources => processLocalImports sources [(rc_rootName r, rc_rootName r)]
      | None => processImports [(resolveModule (rc_rootName r),
                                 resolveModule (rc_rootName r))]
      end.
Proof.
  split; [apply onmessage_runtimeCompile_calls|].
  unfold runtimeRootNames, runtimeResolvedRootName. by destruct (rc_sources r).
Qed.

(** X5.  The three outcomes of a [Compile] request.  It aborts with no
    response when the import it awaits is rejected; it aborts on the
    failed assertion when it asks for a bundle, its configuration step
    and its program leave no diagnostics, and the number of resolved root
    modules is not one (none at all included); in every other case it is
    answered. *)
Theorem X5_compile_aborts_only_on_bundle_roots
    (rejects : Rejections) (r : CompilerRequestCompile) :
  match rejects (map (λ rootName, (rootName, rootName)) (c_rootNames r)) with
  | Some reason => aborts (onmessage_awaiting rejects (Compile r)) (Rejected reason)
  | None =>
      if truthy_bool (c_bundle r) && configClean r && is_empty (compilePreEmit r)
         && negb (Nat.eqb (length (compileResolved r)) 1)
      then aborts (onmessage_awaiting rejects (Compile r)) (AssertionFailed None)
      else ∃ result,
             responds (onmessage_awaiting rejects (Compile r)) (CompileResponse result)
  end.
Proof.
  pose proof (onmessage_awaiting_run rejects (Compile r)) as Hawait.
  unfold rejection in Hawait. cbn [awaitedImports mbind option_bind] in Hawait.
  destruct (rejects _) as [reason|]; [exact Hawait|rewrite Hawait].
  pose proof (onmessage_compile r) as Hrun. cbn zeta in Hrun.
  destruct (configClean r); rewrite ?andb_false_r; cbn [andb].
  - destruct Hrun as [_ Hrun].
    destruct (is_empty (compilePreEmit r)); rewrite ?andb_false_r, ?andb_true_r; cbn [andb].
    + destruct (truthy_bool (c_bundle r) && negb (Nat.eqb (length (compileResolved r)) 1));
        destruct Hrun as [_ Hrun]; [done|by eexists].
    + destruct Hrun as [_ Hrun]. by eexists.
  - destruct Hrun as (_ & _ & Hrun). by eexists.
Qed.

(** X6.  [emitSkipped] is [true] in every result of a [Compile] request
    unless the emit ran: a posted result with [emitSkipped = false] means
    that the configuration step and the program left no diagnostics, and
    that the engine's emit was invoked, once, and reported so. *)
Theorem X6_emit_skipped_unless_emitted (r : CompilerRequestCompile) (result : CompileResult) :
  CompileResponse result ∈ posted (events (onmessage (Compile r))) →
  emitSkipped result = false →
  emits (events (onmessage (Compile r))) = 1%nat
  ∧ er_emitSkipped (compileEmitResult r) = false
  ∧ configClean r = true ∧ compilePreEmit r = [].
Proof.
  intros Hin Hskipped.
  destruct (compile_posted r _ Hin) as (skipped & ds & Heq & Hemitted).
  injection Heq as ->. by apply Hemitted.
Qed.

(** X7.  Every response has the variant of its request, and its
    diagnostics are never present and empty: the result of a [Compile]
    request has no diagnostics or the translation of a non-empty list, and
    the first element of a [RuntimeCompile] response is never an empty
    list of items. *)
Theorem X7_response_variant_and_diagnostics
    (request : CompilerRequest) (response : Response) :
  response ∈ posted (events (onmessage request)) →
  match request, response with
  | Compile _, CompileResponse result =>
      diagnostics result = None
      ∨ ∃ ds, ds ≠ [] ∧ diagnostics result = Some (fromTypeScriptDiagnostic ds)
  | RuntimeCompile _, RuntimeCompileResponse first _ => first ≠ Some []
  | RuntimeTranspile _, RuntimeTranspileResponse _ => True
  | _, _ => False
  end.
Proof.
  intros Hin. destruct request as [r|r|r|type].
  - destruct (compile_posted r _ Hin) as (skipped & ds & -> & _).
    apply compileResult_diagnostics.
  - destruct (onmessage_runtimeCompile r) as (state' & _ & _ & _ & _ & Hrun).
    destruct (er_emitSkipped (runtimeEmitResult r)).
    + destruct Hrun as (_ & Hposted & _). rewrite Hposted in Hin.
      by apply not_elem_of_nil in Hin.
    + apply responds_posted in Hrun as (Hposted & _). rewrite Hposted in Hin.
      apply list_elem_of_singleton in Hin as ->. apply itemsOrAbsent_not_empty.
  - destruct (onmessage_runtimeTranspile r) as [Hrun _].
    apply responds_posted in Hrun as (Hposted & _). rewrite Hposted in Hin.
    by apply list_elem_of_singleton in Hin as ->.
  - rewrite onmessage_unhandled in Hin. by apply not_elem_of_nil in Hin.
Qed.

(** X8.  No request creates more than one program or emits more than
    once, and nothing is emitted without a program; a [RuntimeTranspile]
    request and a payload of no known kind create and emit nothing. *)
Theorem X8_at_most_one_program_and_emit (request : CompilerRequest) :
  (length (created (events (onmessage request))) ≤ 1
   ∧ emits (events (onmessage request)) ≤ length (created (events (onmessage request))))%nat
  ∧ match request with
    | RuntimeTranspile _ | Unhandled _ =>
        created (events (onmessage request)) = []
        ∧ emits (events (onmessage request)) = 0%nat
    | _ => True
    end.
Proof.
  destruct request as [r|r|r|type].
  - pose proof (onmessage_compile r) as Hrun. cbn zeta in Hrun.
    destruct (configClean r).
    + destruct Hrun as [-> Hrun].
      destruct (is_empty (compilePreEmit r));
        [destruct (truthy_bool (c_bundle r) && negb (Nat.eqb (length (compileResolved r)) 1))|];
        destruct Hrun as [-> _]; cbn; (split; [lia|done]).
    + destruct Hrun as (-> & -> & _). cbn. split; [lia|done].
  - destruct (onmessage_runtimeCompile r) as (state' & _ & _ & -> & -> & _).
    cbn. split; [lia|done].
  - destruct (onmessage_runtimeTranspile r) as (_ & -> & ->). cbn. split; [lia|done].
  - rewrite onmessage_unhandled. cbn. split; [lia|done].
Qed.

End More.

Section Configuration.
Context `{Engine}.

Lemma configuration_skipped r :
  c_config r = None ∨ c_config r = Some "" ∨ c_configPath r = None ∨ c_configPath r = Some "" →
  configSupplied r = false ∧ compileConfigured r = (newHost (c_bundle r), None).
Proof.
  intros Hskip.
  assert (configSupplied r = false) as Hsupplied.
  { unfold configSupplied.
    destruct Hskip as [Heq | [Heq | [Heq | Heq]]]; rewrite Heq; cbn;
      by rewrite ?andb_false_r. }
  split; [done|]. unfold compileConfigured. rewrite Hsupplied.
  by destruct (c_config r), (c_configPath r).
Qed.

Lemma configuration_run r config path :
  c_config r = Some config → config ≠ "" →
  c_configPath r = Some path → path ≠ "" →
  configSupplied r = true
  ∧ compileConfigured r
    = ({| _options := (hostConfigure (hostInitialOptions (c_bundle r)) path config).1 |},
       processConfigureResponse
         (hostConfigure (hostInitialOptions (c_bundle r)) path config).2 path).
Proof.
  intros Hconfig Hne Hpath HnePath.
  destruct (nonempty_string_truthy config Hne) as [Ht1 Ht2].
  destruct (nonempty_string_truthy path HnePath) as [Ht3 _].
  assert (configSupplied r = true) as Hsupplied.
  { unfold configSupplied. by rewrite Hconfig, Hpath, Ht1, Ht2, Ht3. }
  split; [done|]. unfold compileConfigured, configure, newHost.
  rewrite Hsupplied, Hconfig, Hpath. cbn [_options].
  by destruct (hostConfigure (hostInitialOptions (c_bundle r)) path config).
Qed.

(** X9.  A [Compile] request whose config is missing or empty, or whose
    config path is missing or the empty string, is handled as one with no
    configuration: the host's [configure] is not called, and the program
    is created from the request's root names with the options the host
    starts from. *)
Theorem X9_configuration_skipped_without_text_or_path (r : CompilerRequestCompile) :
  c_config r = None ∨ c_config r = Some "" ∨ c_configPath r = None ∨ c_configPath r = Some "" →
(OpConfigure ∉ calls (events (onmessage (Compile r))))
  ∧ created (events (onmessage (Compile r)))
    = [(c_rootNames r, hostInitialOptions (c_bundle r))].
Proof.
  intros Hskip. destruct (configuration_skipped r Hskip) as [Hsupplied Hconfigured].
  pose proof (onmessage_compile r) as Hrun. cbn zeta in Hrun.
  pose proof (onmessage_compile_calls r) as Hcalls.
  unfold configClean in *. rewrite Hsupplied, Hconfigured in *. cbn in Hrun, Hcalls.
  destruct Hrun as [Hcreated _]. split; [|done].
  rewrite Hcalls. intros Hin.
  repeat (apply elem_of_cons in Hin as [Hin|Hin]; [discriminate Hin|]).
  destruct (is_empty (compilePreEmit r)), (truthy_bool (c_bundle r)),
    (Nat.eqb (length (compileResolved r)) 1);
    repeat (apply elem_of_cons in Hin as [Hin|Hin]; [discriminate Hin|]);
    by apply not_elem_of_nil in Hin.
Qed.

(** X10.  A [Compile] request with a non-empty config and config path
    whose configuration yields no diagnostics (none reported, or an empty
    list) goes on to the program: [configure] is called once, right after
    the imports, and the program is created with the options the host
    holds after the configuration. *)
Theorem X10_configured_options_reach_the_program
    (r : CompilerRequestCompile) (config path : string) :
  c_config r = Some config → config ≠ "" →
  c_configPath r = Some path → path ≠ "" →
  (processConfigureResponse
     (hostConfigure (hostInitialOptions (c_bundle r)) path config).2 path = None
   ∨ processConfigureResponse
       (hostConfigure (hostInitialOptions (c_bundle r)) path config).2 path = Some []) →
  created (events (onmessage (Compile r)))
  = [(c_rootNames r, (hostConfigure (hostInitialOptions (c_bundle r)) path config).1)]
  ∧ take 4 (calls (events (onmessage (Compile r))))
    = [OpProcessImports; OpConfigure;
       OpCreateProgram (c_rootNames r)
         (hostConfigure (hostInitialOptions (c_bundle r)) path config).1;
       OpGetPreEmitDiagnostics].
Proof.
  intros Hconfig Hne Hpath HnePath Hclean.
  destruct (configuration_run r config path Hconfig Hne Hpath HnePath)
    as [Hsupplied Hconfigured].
  pose proof (onmessage_compile r) as Hrun. cbn zeta in Hrun.
  pose proof (onmessage_compile_calls r) as Hcalls.
  unfold configClean in *. rewrite Hsupplied, Hconfigured in *.
  cbn [fst snd] in Hrun, Hcalls.
  destruct Hclean as [Hnone|Hnil]; rewrite ?Hnone, ?Hnil in Hrun, Hcalls;
    cbn in Hrun, Hcalls; destruct Hrun as [Hcreated _]; (split; [done|]);
    by rewrite Hcalls.
Qed.

(** X11.  The engine's emit runs for a [Compile] request exactly when the
    configuration step and the program leave no diagnostics and the
    request either asks for no bundle or has exactly one resolved root
    module; [setRootExports] is called only in the second of these cases,
    and then right before the emit. *)
Theorem X11_compile_emit_and_root_exports (r : CompilerRequestCompile) :
  emits (events (onmessage (Compile r)))
  = (if configClean r && is_empty (compilePreEmit r)
        && (negb (truthy_bool (c_bundle r)) || Nat.eqb (length (compileResolved r)) 1)
     then 1 else 0)%nat
  ∧ (OpSetRootExports ∈ calls (events (onmessage (Compile r)))
     ↔ truthy_bool (c_bundle r) = true ∧ configClean r = true
       ∧ compilePreEmit r = [] ∧ length (compileResolved r) = 1%nat)
  ∧ (OpSetRootExports ∈ calls (events (onmessage (Compile r))) →
     ∃ before, calls (events (onmessage (Compile r)))
               = before ++ [OpSetRootExports; OpEmit]).
Proof.
  pose proof (onmessage_compile r) as Hrun. cbn zeta in Hrun.
  rewrite onmessage_compile_calls.
  destruct (configClean r) eqn:Hclean, (is_empty (compilePreEmit r)) eqn:Hempty,
    (truthy_bool (c_bundle r)) eqn:Hbundle,
    (Nat.eqb (length (compileResolved r)) 1) eqn:Hone, (configSupplied r);
    cbn [andb negb orb app] in *;
    destruct Hrun as (_ & Hemits & _); (split; [exact Hemits|]); split.
  all: first
    [ by (split; [intros _|intros _; set_solver];
          split; [done|]; split; [done|];
          split; [by apply is_empty_nil|by apply Nat.eqb_eq])
    | by (split; [|intros (?&?&Hpre%is_empty_nil&Hlen%Nat.eqb_eq); congruence];
          intros Hin;
          repeat (apply elem_of_cons in Hin as [Hin|Hin]; [discriminate Hin|]);
          by apply not_elem_of_nil in Hin)
    | by (intros _; eexists [_; _; _])
    | by (intros _; eexists [_; _; _; _])
    | by (intros Hin;
          repeat (apply elem_of_cons in Hin as [Hin|Hin]; [discriminate Hin|]);
          by apply not_elem_of_nil in Hin) ].
Qed.

End Configuration.

Section Transpile.
Context `{Engine}.

Lemma transpile_loop_calls compilerOptions entries : ∀ result,
  calls (events (foldM (transpile_entry compilerOptions) result entries))
  = OpTranspileModule <$> entries.*1.
Proof.
  induction entries as [|[fileName inputText] entries IH]; intros result; [done|].
  cbn. by rewrite IH.
Qed.

(** X12.  A [RuntimeTranspile] request has the engine transpile the input
    files one by one in the order of the entries of [sources], each
    exactly once, and calls nothing else: as many calls as there are
    entries, no file twice when the names are distinct, and none at all
    for an empty mapping, which is answered with the empty mapping. *)
Theorem X12_transpile_once_per_file (r : CompilerRequestRuntimeTranspile) :
  calls (events (onmessage (RuntimeTranspile r)))
  = OpTranspileModule <$> (Object_entries (rt_sources r)).*1
  ∧ length (calls (events (onmessage (RuntimeTranspile r)))) = length (rt_sources r)
  ∧ (NoDup (rt_sources r).*1 → NoDup (calls (events (onmessage (RuntimeTranspile r)))))
  ∧ (rt_sources r = [] →
     events (onmessage (RuntimeTranspile r))
     = [EvPostMessage (RuntimeTranspileResponse ∅); EvWorkerClose]).
Proof.
  assert (calls (events (onmessage (RuntimeTranspile r)))
          = OpTranspileModule <$> (Object_entries (rt_sources r)).*1) as Hcalls.
  { pose proof (transpile_loop_calls (transpileOptions (rt_options r))
                  (Object_entries (rt_sources r)) ∅) as Hloop.
    destruct (transpile_loop (rt_options r) (Object_entries (rt_sources r)) ∅)
      as (t & Hrun & _).
    rewrite Hrun in Hloop. cbn [events] in Hloop.
    rewrite onmessage_RuntimeTranspile. unfold runtimeTranspile.
    rewrite (bind_normal _ _ _ _ Hrun).
    cbn. rewrite !calls_app, Hloop. cbn. by rewrite !app_nil_r. }
  split; [done|]. rewrite Hcalls. unfold Object_entries. split; [|split].
  - by rewrite !length_fmap.
  - intros Hnd. apply NoDup_fmap_2; [|done]. by intros ?? [= ->].
  - intros Hempty. rewrite onmessage_RuntimeTranspile. unfold runtimeTranspile, Object_entries.
    rewrite Hempty. reflexivity.
Qed.

End Transpile.

Lemma X12_transpile_once_per_file_witness :
  events (@onmessage cleanEngine
            (RuntimeTranspile {| rt_sources := []; rt_options := None |}))
  = [EvPostMessage (RuntimeTranspileResponse ∅); EvWorkerClose]
  ∧ NoDup (calls (events (@onmessage cleanEngine (RuntimeTranspile transpileTwo)))).
Proof.
  split.
  - apply (@X12_transpile_once_per_file cleanEngine
             {| rt_sources := []; rt_options := None |}).
    reflexivity.
  - apply (@X12_transpile_once_per_file cleanEngine transpileTwo).
    cbn. apply NoDup_cons. split; [|apply NoDup_singleton].
    intros Hin%list_elem_of_singleton. discriminate Hin.
Defined.

Section Filter.
Context `{Engine}.

Lemma filterIgnored_sublist ds : filterIgnored ds `sublist_of` ds.
Proof.
  unfold filterIgnored. induction ds as [|d ds IH]; [done|].
  cbn. destruct (not_ignored d); by constructor.
Qed.

Lemma filterIgnored_elem_of ds d :
  d ∈ filterIgnored ds ↔ d ∈ ds ∧ code d ∉ ignoredDiagnostics.
Proof.
  unfold filterIgnored, not_ignored.
  rewrite (list_elem_of_In _ d), filter_In, negb_true_iff, bool_decide_eq_false.
  by rewrite <- (list_elem_of_In ds d).
Qed.

Lemma filterIgnored_nil ds :
  filterIgnored ds = [] ↔ Forall (λ d, code d ∈ ignoredDiagnostics) ds.
Proof.
  unfold filterIgnored, not_ignored. induction ds as [|d ds IH]; cbn.
  - split; [by constructor|done].
  - rewrite Forall_cons. case_bool_decide as Hd; cbn.
    + rewrite IH. tauto.
    + split; [done|]. by intros [? _].
Qed.

(** X13.  For a [Compile] request whose configuration step leaves no
    diagnostics: the diagnostics it reports before the emit are the
    pre-emit diagnostics of its program whose code is not ignored, all of
    them and in the engine's order.  One such diagnostic is enough to keep
    the emit from running and to have the response carry
    [emitSkipped = true]; pre-emit diagnostics with ignored codes alone do
    not keep a request that asks for no bundle from emitting. *)
Theorem X13_only_unignored_diagnostics_block_the_emit (r : CompilerRequestCompile) :
  configClean r = true →
  compilePreEmit r `sublist_of` getPreEmitDiagnostics (compileProgram r)
  ∧ (∀ d, d ∈ compilePreEmit r
          ↔ d ∈ getPreEmitDiagnostics (compileProgram r) ∧ code d ∉ ignoredDiagnostics)
  ∧ ((∃ d, d ∈ getPreEmitDiagnostics (compileProgram r) ∧ code d ∉ ignoredDiagnostics) →
     emits (events (onmessage (Compile r))) = 0%nat
     ∧ responds (onmessage (Compile r))
         (CompileResponse
            {| emitSkipped := true;
               diagnostics := Some (fromTypeScriptDiagnostic (compilePreEmit r)) |}))
  ∧ (Forall (λ d, code d ∈ ignoredDiagnostics) (getPreEmitDiagnostics (compileProgram r)) →
     truthy_bool (c_bundle r) = false →
     emits (events (onmessage (Compile r))) = 1%nat).
Proof.
  intros Hclean.
  split; [apply filterIgnored_sublist|]. split; [intros d; apply filterIgnored_elem_of|].
  pose proof (onmessage_compile r) as Hrun. cbn zeta in Hrun.
  rewrite Hclean in Hrun. destruct Hrun as [_ Hrun]. split.
  - intros (d & Hd & Hcode).
    assert (d ∈ compilePreEmit r) as Hin by (by apply filterIgnored_elem_of).
    destruct (compilePreEmit r) as [|d' ds] eqn:Hpre; [by apply not_elem_of_nil in Hin|].
    exact Hrun.
  - intros Hall Hbundle. apply filterIgnored_nil in Hall.
    unfold compilePreEmit in Hrun. rewrite Hall, Hbundle in Hrun. cbn in Hrun.
    by destruct Hrun.
Qed.

End Filter.

(** An engine whose programs have one pre-emit diagnostic with an ignored
    code and one without, in this order. *)
Lemma X13_only_unignored_diagnostics_block_the_emit_witness :
  emits (events (@onmessage (scripted None [diagnosticOf 2691; diagnosticOf 2322] emitDone)
                   (Compile compileOne))) = 0%nat
  ∧ emits (events (@onmessage (scripted None [diagnosticOf 2691] emitDone)
                     (Compile compileOne))) = 1%nat.
Proof.
  split.
  - apply (@X13_only_unignored_diagnostics_block_the_emit
             (scripted None [diagnosticOf 2691; diagnosticOf 2322] emitDone) compileOne).
    + reflexivity.
    + exists (diagnosticOf 2322). split.
      * cbn. apply elem_of_cons. right. apply list_elem_of_singleton. reflexivity.
      * cbn. intros Hin.
        repeat (apply elem_of_cons in Hin as [Hin|Hin]; [discriminate Hin|]).
        by apply not_elem_of_nil in Hin.
  - apply (@X13_only_unignored_diagnostics_block_the_emit
             (scripted None [diagnosticOf 2691] emitDone) compileOne).
    + reflexivity.
    + cbn. apply Forall_cons. split; [|apply Forall_nil_2].
      cbn. apply elem_of_cons. right. apply elem_of_cons. by left.
    + reflexivity.
Defined.

Lemma X6_emit_skipped_unless_emitted_witness :
  emits (events (@onmessage cleanEngine (Compile compileOne))) = 1%nat
  ∧ er_emitSkipped (@compileEmitResult cleanEngine compileOne) = false
  ∧ @configClean cleanEngine compileOne = true
  ∧ @compilePreEmit cleanEngine compileOne = [].
Proof.
  apply (@X6_emit_skipped_unless_emitted cleanEngine compileOne
           {| emitSkipped := false; diagnostics := None |}).
  - vm_compute. constructor.
  - reflexivity.
Defined.

Lemma X7_response_variant_and_diagnostics_witness :
  Some [parseDiagnostic (diagnosticOf 2322)] ≠ Some [].
Proof.
  apply (@X7_response_variant_and_diagnostics failingEngine
           (RuntimeCompile runtimeOne)
           (RuntimeCompileResponse (Some [parseDiagnostic (diagnosticOf 2322)])
                                   (OfEmitMap (Some {[ "a.ts.js" := "compiled" ]})))).
  vm_compute. constructor.
Defined.

Lemma X9_configuration_skipped_without_text_or_path_witness :
  (OpConfigure ∉ calls (events (@onmessage configEngine (Compile compileEmptyPath))))
  ∧ created (events (@onmessage configEngine (Compile compileEmptyPath)))
    = [(["a.ts"], @hostInitialOptions configEngine None)].
Proof.
  apply (@X9_configuration_skipped_without_text_or_path configEngine compileEmptyPath).
  right. right. right. reflexivity.
Defined.

Lemma X10_configured_options_reach_the_program_witness :
  created (events (@onmessage cleanEngine (Compile compileConfig)))
  = [(["a.ts"], @hostInitialOptions cleanEngine None)]
  ∧ take 4 (calls (events (@onmessage cleanEngine (Compile compileConfig))))
    = [OpProcessImports; OpConfigure;
       OpCreateProgram ["a.ts"] (@hostInitialOptions cleanEngine None);
       OpGetPreEmitDiagnostics].
Proof.
  apply (@X10_configured_options_reach_the_program cleanEngine compileConfig
           "{}" "tsconfig.json").
  - reflexivity.
  - discriminate.
  - reflexivity.
  - discriminate.
  - left. reflexivity.
Defined.

(** A bundle of no root module aborts like one of several. *)
Example bundle_of_nothing_aborts :
  aborts (@onmessage cleanEngine (Compile bundleNone)) (AssertionFailed None).
Proof. repeat split; vm_compute; reflexivity. Qed.

(** Without local sources the root name is resolved, then imported. *)
Example runtime_remote_calls :
  take 2 (calls (events (@onmessage cleanEngine (RuntimeCompile runtimeRemote))))
  = [OpResolveModules; OpProcessImports].
Proof. vm_compute. reflexivity. Qed.
